(** * Trade predictor (modules/trades/tradePredictor.js)

    A shallow embedding of the [TradePredictor] object and the properties
    of its [predictSetup] entry point.

    Modelling decisions, all of them visible in the definitions below:

    - A JavaScript Number is a value of [num]: an exact rational, one of the
      two infinities, or NaN.  The arithmetic is the arithmetic of the
      source on exact values; the rounding error of binary64 and the sign of
      zero are outside the model (the only divisor that can be zero in the
      module is the result of [Math.abs], a positive zero).  This model
      carries the bounds, the orders and the structure of the results.
    - Where a result turns on the last digit, that is in the tolerance test
      of the selection and in the floor of the position size, the code is
      embedded a second time in [Binary64], on the machine's binary64
      numbers, with the operations the kernel computes.
    - An object property that may be missing is an [option]; [None] is
      [undefined].  The entries of the history are objects with the fields
      of a journal record; a timestamp, when present, is a valid Date.
    - [new Date()] reads a wall clock.  The clock is an oracle giving the
      n-th reading in milliseconds, and the code is written in a small
      monad that counts the readings.
    - [PatternAnalysis.getPredictionHistory()] and [Utilities.formatDate]
      live outside the module: the history is an argument and the formatter
      is part of the environment. *)

From Stdlib Require Import QArith Qround Qabs ZArith List String Bool Lia Lqa.
From Stdlib Require Import Floats Uint63.
Import ListNotations.

Set Warnings "-inexact-float".

Open Scope Q_scope.

(** ** JavaScript numbers *)

Module JsNum.

Inductive num : Type :=
| Fin (q : Q)
| PInf
| NInf
| NaN.

(** [ToNumber] of a property that may be [undefined]. *)
Definition toNum (v : option num) : num :=
  match v with
  | Some n => n
  | None => NaN
  end.

Definition neg (a : num) : num :=
  match a with
  | Fin x => Fin (- x)
  | PInf => NInf
  | NInf => PInf
  | NaN => NaN
  end.

Definition add (a b : num) : num :=
  match a, b with
  | NaN, _ | _, NaN => NaN
  | Fin x, Fin y => Fin (x + y)
  | PInf, NInf | NInf, PInf => NaN
  | PInf, _ | _, PInf => PInf
  | NInf, _ | _, NInf => NInf
  end.

Definition sub (a b : num) : num := add a (neg b).

(** The sign of an infinite product or quotient. *)
Definition signed_inf (c : comparison) (positive : bool) : num :=
  match c with
  | Eq => NaN
  | Gt => if positive then PInf else NInf
  | Lt => if positive then NInf else PInf
  end.

Definition mul (a b : num) : num :=
  match a, b with
  | NaN, _ | _, NaN => NaN
  | Fin x, Fin y => Fin (x * y)
  | Fin x, PInf | PInf, Fin x => signed_inf (x ?= 0) true
  | Fin x, NInf | NInf, Fin x => signed_inf (x ?= 0) false
  | PInf, PInf | NInf, NInf => PInf
  | PInf, NInf | NInf, PInf => NInf
  end.

Definition div (a b : num) : num :=
  match a, b with
  | NaN, _ | _, NaN => NaN
  | Fin x, Fin y =>
      if Qeq_bool y 0 then signed_inf (x ?= 0) true else Fin (x / y)
  | Fin _, (PInf | NInf) => Fin 0
  | PInf, Fin y => if Qle_bool 0 y then PInf else NInf
  | NInf, Fin y => if Qle_bool 0 y then NInf else PInf
  | (PInf | NInf), (PInf | NInf) => NaN
  end.

(** [Math.abs]. *)
Definition abs (a : num) : num :=
  match a with
  | Fin x => Fin (Qabs x)
  | PInf | NInf => PInf
  | NaN => NaN
  end.

(** [a <= b]; every comparison with NaN is false. *)
Definition leb (a b : num) : bool :=
  match a, b with
  | NaN, _ | _, NaN => false
  | Fin x, Fin y => Qle_bool x y
  | NInf, _ => true
  | _, PInf => true
  | _, _ => false
  end.

(** [a >= b]. *)
Definition geb (a b : num) : bool := leb b a.

(** [Math.max] and [Math.min]: NaN as soon as an argument is NaN. *)
Definition max (a b : num) : num :=
  match a, b with
  | NaN, _ | _, NaN => NaN
  | _, _ => if leb a b then b else a
  end.

Definition min (a b : num) : num :=
  match a, b with
  | NaN, _ | _, NaN => NaN
  | _, _ => if leb a b then a else b
  end.

(** [Math.floor]. *)
Definition floor (a : num) : num :=
  match a with
  | Fin x => Fin (inject_Z (Qfloor x))
  | _ => a
  end.

(** Truthiness of a number: zero and NaN are falsy. *)
Definition truthy (a : num) : bool :=
  match a with
  | Fin x => negb (Qeq_bool x 0)
  | PInf | NInf => true
  | NaN => false
  end.

(** The integer n for which n / 100 is closest to a non-negative x, the
    larger one when two are as close: the digits [toFixed(2)] prints. *)
Definition hundredths (x : Q) : Z := Qfloor (x * 100 + (1 # 2)).

(** [Number(a.toFixed(2))].  [toFixed] prints the sign and then the
    magnitude; from 10^21 on it prints the number as [String] does, so the
    value comes back unchanged, as do the infinities and NaN. *)
Definition toFixed2 (a : num) : num :=
  match a with
  | Fin x =>
      if Qle_bool (inject_Z (10 ^ 21)) (Qabs x) then Fin x
      else if Qle_bool 0 x then Fin (inject_Z (hundredths x) / 100)
      else Fin (- (inject_Z (hundredths (- x)) / 100))
  | _ => a
  end.

(** [n] as a Number. *)
Definition ofNat (n : nat) : num := Fin (inject_Z (Z.of_nat n)).
Definition ofZ (z : Z) : num := Fin (inject_Z z).

(** Two numbers denote the same value. *)
Definition same (a b : num) : Prop :=
  match a, b with
  | Fin x, Fin y => x == y
  | PInf, PInf | NInf, NInf | NaN, NaN => True
  | _, _ => False
  end.

(** A finite number within the closed interval from [lo] to [hi]. *)
Definition within (lo hi : Q) (a : num) : Prop :=
  match a with
  | Fin x => lo <= x /\ x <= hi
  | _ => False
  end.

(** A finite number strictly below another. *)
Definition below (a b : num) : Prop :=
  match a, b with
  | Fin x, Fin y => x < y
  | _, _ => False
  end.

Definition isFin (a : num) : Prop :=
  match a with
  | Fin _ => True
  | _ => False
  end.

End JsNum.

Import JsNum.

Notation "a ~= b" := (same a b) (at level 70, no associativity).

(** ** The wall clock *)

(** The environment of a call: the n-th reading of the clock, in
    milliseconds since the epoch, and the date formatter of the host. *)
Record Env : Type := mkEnv {
  wall : nat -> Z;
  formatDate : Z -> string
}.

(** A computation that knows how many readings were taken before it and
    says how many were taken after it. *)
Definition Clocked (A : Type) : Type := Env -> nat -> A * nat.

Definition ret {A : Type} (a : A) : Clocked A := fun _ n => (a, n).

Definition bind {A B : Type} (m : Clocked A) (k : A -> Clocked B) : Clocked B :=
  fun e n => let (a, n') := m e n in k a e n'.

(** [new Date()]. *)
Definition newDate : Clocked Z := fun e n => (wall e n, S n).

(** [formatDate(d)] for a valid date [d]. *)
Definition format (d : Z) : Clocked string := fun e n => (formatDate e d, n).

Notation "x <- m ;; k" := (bind m (fun x => k))
  (at level 61, m at next level, right associativity).

(** [xs.map(f)] for a callback that may read the clock, left to right. *)
Fixpoint mapM {A B : Type} (f : A -> Clocked B) (xs : list A) : Clocked (list B) :=
  match xs with
  | [] => ret []
  | x :: xs' =>
      y <- f x ;;
      ys <- mapM f xs' ;;
      ret (y :: ys)
  end.

Definition run {A : Type} (m : Clocked A) (e : Env) (n : nat) : A := fst (m e n).

(** ** Data *)

(** A record of the prediction history. *)
Module Trade.
Record t : Type := mk {
  modelType : string;
  session : string;
  qualityScore : num;
  result : string;
  timestamp : option Z      (* a valid Date, in milliseconds, when present *)
}.
End Trade.

(** The argument of [predictSetup]. *)
Module Setup.
Record t : Type := mk {
  modelType : option string;
  session : option string;
  qualityScore : option num;    (* [None]: missing or not of type number *)
  currentPrice : option num;
  volatility : option string;
  accountBalance : option num;
  maxRiskPercent : option num;
  timeframes : option (list string)
}.
End Setup.

Record TimeframeInfo : Type := mkTimeframeInfo {
  trend : string;
  strength : num
}.

(** The [prediction] object of a successful answer. *)
Record Prediction : Type := mkPrediction {
  probability : num;
  confidence : num;
  recommendedEntry : num;
  suggestedStopLoss : num;
  adjustedStopLoss : num;
  timeframeAlignment : option (list (string * TimeframeInfo));
  positionSize : option num;     (* [None] is [null] *)
  timestamp : string
}.

(** [{success: false, message}] or [{success: true, prediction}]. *)
Inductive Response : Type :=
| Failure (message : string)
| Success (prediction : Prediction).

(** ** The module *)

Open Scope string_scope.

(** Truthiness of a string property: missing and empty are falsy. *)
Definition truthyStr (s : option string) : bool :=
  match s with
  | Some s' => negb (String.eqb s' "")
  | None => false
  end.

(** Truthiness of a numeric property. *)
Definition truthyNum (v : option num) : bool :=
  match v with
  | Some n => truthy n
  | None => false
  end.

(** [field === setupField] for a string field of a record. *)
Definition strictEq (field : string) (setupField : option string) : bool :=
  match setupField with
  | Some s => String.eqb field s
  | None => false
  end.

Definition _validateSetup (setup : Setup.t) : bool :=
  truthyStr (Setup.modelType setup) &&
  truthyStr (Setup.session setup) &&
  match Setup.qualityScore setup with
  | Some q => geb q (Fin 0) && leb q (Fin 5)
  | None => false
  end.

(** The callback of both filters of [_findSimilarTrades]. *)
Definition similarWithin (tolerance : Q) (setup : Setup.t) (trade : Trade.t) : bool :=
  strictEq (Trade.modelType trade) (Setup.modelType setup) &&
  strictEq (Trade.session trade) (Setup.session setup) &&
  leb (abs (sub (Trade.qualityScore trade) (toNum (Setup.qualityScore setup))))
      (Fin tolerance).

(** [xs.slice(0, 5)]. *)
Definition slice5 {A : Type} (xs : list A) : list A := firstn 5 xs.

Definition _findSimilarTrades (setup : Setup.t) (history : list Trade.t) : list Trade.t :=
  match history with
  | [] => []
  | _ =>
      let exactMatches := filter (similarWithin 0.2 setup) history in
      if (2 <=? List.length exactMatches)%nat then slice5 exactMatches
      else slice5 (filter (similarWithin 0.5 setup) history)
  end.

Definition msPerDay : Z := 1000 * 60 * 60 * 24.

Definition _calculateTradeWeight (trade : Trade.t) : Clocked num :=
  let baseWeight := Fin 0.2 in
  let qualityFactor := div (Trade.qualityScore trade) (Fin 5) in
  let qualityWeight := add baseWeight (mul qualityFactor (Fin 1.3)) in
  recencyFactor <-
    match Trade.timestamp trade with
    | Some stamp =>
        now <- newDate ;;
        let daysSince := div (sub (ofZ now) (ofZ stamp)) (ofZ msPerDay) in
        ret (max (Fin 0.8) (sub (Fin 1) (div daysSince (Fin 30))))
    | None => ret (Fin 1)
    end ;;
  let finalWeight := toFixed2 (mul qualityWeight recencyFactor) in
  ret (max (Fin 0.2) finalWeight).

(** [ws.reduce((sum, w) => sum + w, 0)]. *)
Definition sumWeights (ws : list num) : num := fold_left add ws (Fin 0).

Definition isSuccess (trade : Trade.t) : bool := String.eqb (Trade.result trade) "Success".

Definition _calculateProbability (similarTrades : list Trade.t) : Clocked (num * num) :=
  match similarTrades with
  | [] => ret (Fin 0, Fin 0.1)
  | _ =>
      let successCount := List.length (filter isSuccess similarTrades) in
      let totalCount := List.length similarTrades in
      weights <- mapM _calculateTradeWeight similarTrades ;;
      let avgQuality := div (sumWeights weights) (ofNat (List.length weights)) in
      ret (toFixed2 (div (ofNat successCount) (ofNat totalCount)),
           toFixed2 (max (Fin 0.15) (min avgQuality (Fin 1))))
  end.

Definition _calculateEntry (setup : Setup.t) : num :=
  if truthyNum (Setup.currentPrice setup) then toNum (Setup.currentPrice setup)
  else Fin 0.

Definition _calculateStopLoss (setup : Setup.t) : num :=
  let riskPercentage := Fin 0.01 in
  mul (toNum (Setup.currentPrice setup)) (sub (Fin 1) riskPercentage).

Definition _adjustForVolatility (setup : Setup.t) (baseStopLoss : num) : num :=
  match Setup.volatility setup with
  | Some v => if String.eqb v "high" then mul baseStopLoss (Fin 0.85) else baseStopLoss
  | None => baseStopLoss
  end.

(** [acc[tf] = info]: a key that is there keeps its place.  The order in
    which an object lists its keys is not part of the model. *)
Fixpoint assign (tf : string) (info : TimeframeInfo)
    (acc : list (string * TimeframeInfo)) : list (string * TimeframeInfo) :=
  match acc with
  | [] => [(tf, info)]
  | (k, v) :: rest =>
      if String.eqb k tf then (k, info) :: rest else (k, v) :: assign tf info rest
  end.

Definition _analyzeTimeframes (setup : Setup.t) : option (list (string * TimeframeInfo)) :=
  match Setup.timeframes setup with
  | None | Some [] => None
  | Some tfs =>
      Some (fold_left
              (fun acc tf => assign tf (mkTimeframeInfo "bullish" (Fin 0.8)) acc)
              tfs [])
  end.

Definition _calculatePositionSize (setup : Setup.t) (stopLoss : num) : option num :=
  if negb (truthyNum (Setup.accountBalance setup))
     || negb (truthyNum (Setup.maxRiskPercent setup))
  then None
  else
    let riskAmount :=
      mul (toNum (Setup.accountBalance setup))
          (div (toNum (Setup.maxRiskPercent setup)) (Fin 100)) in
    let stopDistance := abs (sub (toNum (Setup.currentPrice setup)) stopLoss) in
    Some (floor (div riskAmount stopDistance)).

(** [predictSetup], with the history that [getPredictionHistory] returned.
    Nothing in the body throws on these types, so the [catch] branch is
    never entered. *)
Definition predictSetup (setup : Setup.t) (history : list Trade.t) : Clocked Response :=
  if negb (_validateSetup setup) then ret (Failure "Invalid setup data")
  else
    let similarTrades := _findSimilarTrades setup history in
    prediction <- _calculateProbability similarTrades ;;
    let baseStopLoss := _calculateStopLoss setup in
    now <- newDate ;;
    stamp <- format now ;;
    ret (Success
           {| probability := fst prediction;
              confidence := snd prediction;
              recommendedEntry := _calculateEntry setup;
              suggestedStopLoss := baseStopLoss;
              adjustedStopLoss := _adjustForVolatility setup baseStopLoss;
              timeframeAlignment := _analyzeTimeframes setup;
              positionSize := _calculatePositionSize setup baseStopLoss;
              timestamp := stamp |}).


(** ** The statements' vocabulary *)

(** A weight that [_calculateTradeWeight] has floored. *)
Definition floored (w : num) : Prop := exists q, w = Fin q /\ 0.2 <= q.


(** A string property that is empty or missing. *)
Definition emptyOrMissing (s : option string) : Prop := s = None \/ s = Some "".

(** A quality score that is a number from 0 to 5, bounds included. *)
Definition scoreInRange (v : option num) : Prop :=
  exists x, v = Some (Fin x) /\ 0 <= x /\ x <= 5.


(** The [stopDistance] of [_calculatePositionSize] in a call of
    [predictSetup]: the distance from the price to the suggested stop. *)
Definition stopDistance (setup : Setup.t) : num :=
  abs (sub (toNum (Setup.currentPrice setup)) (_calculateStopLoss setup)).

(** A numeric property that is missing, zero or NaN. *)
Definition absentOrZero (v : option num) : Prop :=
  v = None \/ v = Some NaN \/ exists x, v = Some (Fin x) /\ x == 0.

(** ** Inputs of the test suite *)

Module Scenario.

(** A clock that stands still at the epoch and a formatter that prints
    nothing. *)
Definition still : Env := mkEnv (fun _ => 0%Z) (fun _ => "").

(** A clock that stands still at [ms]. *)
Definition stillAt (ms : Z) : Env := mkEnv (fun _ => ms) (fun _ => "").

Definition plainSetup (session : string) (quality : Q) : Setup.t :=
  Setup.mk (Some "FVG-RD") (Some session) (Some (Fin quality)) (Some (Fin 100))
           None None None None.

Definition won (session : string) (quality : Q) : Trade.t :=
  Trade.mk "FVG-RD" session (Fin quality) "Success" None.

(** 'should predict trade success probability'. *)
Definition historyA : list Trade.t := [won "London" 4.5; won "London" 4.3].
Definition setupA : Setup.t := plainSetup "London" 4.4.

(** 'should handle low confidence scenarios'. *)
Definition historyB : list Trade.t := [won "Asian" 4.0].
Definition setupB : Setup.t := plainSetup "Asian" 4.0.


(** 'should adjust position size based on risk parameters'. *)
Definition setupD : Setup.t :=
  Setup.mk (Some "FVG-RD") (Some "London") (Some (Fin 4.4)) (Some (Fin 100))
           None (Some (Fin 10000)) (Some (Fin 1)) None.

(** The same with a price of zero: the stop is at zero too. *)
Definition setupZeroPrice : Setup.t :=
  Setup.mk (Some "FVG-RD") (Some "London") (Some (Fin 4.4)) (Some (Fin 0))
           None (Some (Fin 10000)) (Some (Fin 1)) None.

(** A record stamped at the epoch, and a setup it matches. *)
Definition stamped : Trade.t := Trade.mk "FVG-RD" "Asian" (Fin 2.0) "Success" (Some 0%Z).

(** Thirty days after the epoch. *)
Definition thirtyDays : Z := 30 * msPerDay.

End Scenario.

(** ** More vocabulary *)

(** A finite number that is at most another. *)
Definition notAbove (a b : num) : Prop :=
  match a, b with
  | Fin x, Fin y => x <= y
  | _, _ => False
  end.

(** [xs] is [ys] with some elements left out, the others in their order. *)
Inductive Subseq {A : Type} : list A -> list A -> Prop :=
| Subseq_nil : Subseq [] []
| Subseq_skip (x : A) (xs ys : list A) : Subseq xs ys -> Subseq xs (x :: ys)
| Subseq_keep (x : A) (xs ys : list A) : Subseq xs ys -> Subseq (x :: xs) (x :: ys).

(** The own property [tf] of the object that [_analyzeTimeframes] builds. *)
Fixpoint property (tf : string) (alignment : list (string * TimeframeInfo))
    : option TimeframeInfo :=
  match alignment with
  | [] => None
  | (k, v) :: rest => if String.eqb k tf then Some v else property tf rest
  end.

(** What is left of a record's recency before the floor at 0.8: one minus
    a thirtieth of its age in days. *)
Definition freshness (stamp now : Z) : Q :=
  1 - (inject_Z now - inject_Z stamp) / inject_Z msPerDay / 30.

(** The quality part of a weight. *)
Definition qualityWeight (q : Q) : Q := 0.2 + q / 5 * 1.3.



(** The placeholder every timeframe gets. *)
Definition placeholder : TimeframeInfo := mkTimeframeInfo "bullish" (Fin 0.8).

(** [_calculateSimilarity].  In the source the setup carries its own
    [timestamp]; here it is the argument [setupStamp].  [getHours] is the
    hour of the day, in the host's time zone, of a date. *)
Definition _calculateSimilarity (getHours : Z -> Z) (setup : Setup.t)
    (setupStamp : option Z) (trade : Trade.t) : num :=
  let qualityDiff :=
    abs (sub (Trade.qualityScore trade) (toNum (Setup.qualityScore setup))) in
  let qualitySimilarity := max (Fin 0) (sub (Fin 1) (div qualityDiff (Fin 5))) in
  let timeSimilarity :=
    match setupStamp, Trade.timestamp trade with
    | Some s, Some t =>
        let hourDiff := abs (sub (ofZ (getHours s)) (ofZ (getHours t))) in
        max (Fin 0) (sub (Fin 1) (div hourDiff (Fin 24)))
    | _, _ => Fin 1
    end in
  toFixed2 (add (mul qualitySimilarity (Fin 0.7)) (mul timeSimilarity (Fin 0.3))).

(** ** The callers: main.js and the setup form *)

(** [a < b]; every comparison with NaN is false. *)
Definition ltb (a b : num) : bool :=
  match a, b with
  | NaN, _ | _, NaN => false
  | Fin x, Fin y => negb (Qle_bool y x)
  | Fin _, PInf => true
  | Fin _, NInf => false
  | PInf, _ => false
  | NInf, NInf => false
  | NInf, _ => true
  end.

(** [a > b]. *)
Definition gtb (a b : num) : bool := ltb b a.

(** What a [try] block does: it returns, or it throws an [Error] with a
    message. *)
Inductive Outcome (A : Type) : Type :=
| Returned (a : A)
| Thrown (message : string).
Arguments Returned {A} a.
Arguments Thrown {A} message.

(** [try { body } catch (e) { handler(e.message) }]. *)
Definition tryCatch {A : Type} (body : Outcome A) (handler : string -> A) : A :=
  match body with
  | Returned a => a
  | Thrown message => handler message
  end.

(** [predictTradeSetup] of main.js, with the history as for [predictSetup];
    the call of the logger is left out. *)
Definition predictTradeSetup (formData : Setup.t) (history : list Trade.t)
    : Clocked Response :=
  result <- predictSetup formData history ;;
  ret (tryCatch
         match result with
         | Failure message => Thrown message
         | Success prediction => Returned (Success prediction)
         end
         (fun message => Failure message)).

(** The object that [_getFormData] builds. *)
Module FormData.
Record t : Type := mk {
  modelType : string;
  session : string;
  qualityScore : num;
  currentPrice : num;
  volatility : string;
  accountBalance : num;
  maxRiskPercent : num;
  timestamp : Z
}.
End FormData.

(** That object as [predictSetup] reads it: every property it looks at is
    there except [timeframes]; it never reads the [timestamp]. *)
Definition asSetup (data : FormData.t) : Setup.t :=
  Setup.mk (Some (FormData.modelType data)) (Some (FormData.session data))
           (Some (FormData.qualityScore data)) (Some (FormData.currentPrice data))
           (Some (FormData.volatility data)) (Some (FormData.accountBalance data))
           (Some (FormData.maxRiskPercent data)) None.

(** An entry of the [validations] array. *)
Module Check.
Record t : Type := mk {
  condition : bool;
  message : string
}.
End Check.

(** The answer of [_validateFormData]. *)
Module Verdict.
Record t : Type := mk {
  isValid : bool;
  message : string
}.
End Verdict.

(** [Boolean(s)] for a string. *)
Definition nonEmpty (s : string) : bool := negb (String.eqb s "").

Definition validations (data : FormData.t) : list Check.t :=
  [ Check.mk (nonEmpty (FormData.modelType data)) "Model Type is required";
    Check.mk (nonEmpty (FormData.session data)) "Session is required";
    Check.mk (geb (FormData.qualityScore data) (Fin 0)
              && leb (FormData.qualityScore data) (Fin 5))
             "Quality Score must be between 0 and 5";
    Check.mk (gtb (FormData.currentPrice data) (Fin 0))
             "Current Price must be greater than 0";
    Check.mk (gtb (FormData.accountBalance data) (Fin 0))
             "Account Balance must be greater than 0";
    Check.mk (gtb (FormData.maxRiskPercent data) (Fin 0)
              && leb (FormData.maxRiskPercent data) (Fin 5))
             "Risk % must be between 0 and 5" ].

Definition _validateFormData (data : FormData.t) : Verdict.t :=
  let failed := find (fun v => negb (Check.condition v)) (validations data) in
  Verdict.mk
    match failed with
    | Some _ => false
    | None => true
    end
    match failed with
    | Some v => Check.message v
    | None => ""
    end.

(** A value of a cell of the sheet: a number or a text; an empty cell
    holds the empty text.  Cells that hold a boolean or a date are not
    part of the model. *)
Inductive Cell : Type :=
| NumberCell (n : num)
| TextCell (s : string).

(** The conversions of the host between texts and numbers: [Number(s)],
    [String(n)] and [n.toFixed(1)]. *)
Record Host : Type := mkHost {
  parseNumber : string -> num;
  printNumber : num -> string;
  printFixed1 : num -> string
}.

Definition truthyCell (c : Cell) : bool :=
  match c with
  | NumberCell n => truthy n
  | TextCell s => nonEmpty s
  end.

(** [c || d]. *)
Definition orElse (c d : Cell) : Cell := if truthyCell c then c else d.

(** [String(c)] and [Number(c)]. *)
Definition asString (host : Host) (c : Cell) : string :=
  match c with
  | NumberCell n => printNumber host n
  | TextCell s => s
  end.

Definition asNumber (host : Host) (c : Cell) : num :=
  match c with
  | NumberCell n => n
  | TextCell s => parseNumber host s
  end.

(** Column C of the range B2:C8, that is [values[0][1]] to [values[6][1]]. *)
Module Sheet.
Record t : Type := mk {
  modelType : Cell;
  session : Cell;
  qualityScore : Cell;
  currentPrice : Cell;
  volatility : Cell;
  accountBalance : Cell;
  maxRiskPercent : Cell
}.
End Sheet.

Definition _getFormData (host : Host) (sheet : Sheet.t) : Clocked FormData.t :=
  now <- newDate ;;
  ret (FormData.mk
         (asString host (orElse (Sheet.modelType sheet) (TextCell "")))
         (asString host (orElse (Sheet.session sheet) (TextCell "")))
         (asNumber host (orElse (Sheet.qualityScore sheet) (NumberCell (Fin 0))))
         (asNumber host (orElse (Sheet.currentPrice sheet) (NumberCell (Fin 0))))
         (asString host (orElse (Sheet.volatility sheet) (TextCell "medium")))
         (asNumber host (orElse (Sheet.accountBalance sheet) (NumberCell (Fin 0))))
         (asNumber host (orElse (Sheet.maxRiskPercent sheet) (NumberCell (Fin 1))))
         now).

(** The rows that [_displayResults] writes to E2:F8. *)
Definition _displayResults (host : Host) (prediction : Prediction)
    : list (string * Cell) :=
  [ ("Probability:",
     TextCell (printFixed1 host (mul (probability prediction) (Fin 100)) ++ "%"));
    ("Confidence:",
     TextCell (printFixed1 host (mul (confidence prediction) (Fin 100)) ++ "%"));
    ("Entry Price:", NumberCell (recommendedEntry prediction));
    ("Stop Loss:", NumberCell (suggestedStopLoss prediction));
    ("Position Size:",
     match positionSize prediction with
     | Some size => if truthy size then NumberCell size else TextCell "N/A"
     | None => TextCell "N/A"
     end);
    ("Time:", TextCell (timestamp prediction));
    ("Status:", TextCell "Analysis Complete") ].

(** What a call of [handleSubmit] does: the value it returns, the alert it
    shows, if any, with its title and message, and the rows it writes, if
    any. *)
Record Submission : Type := mkSubmission {
  returned : bool;
  alert : option (string * string);
  written : option (list (string * Cell))
}.

(** [handleSubmit], for the sheet the host has active.  Nothing in the body
    throws on these types, so the [catch] branch, with its 'Error' alert,
    is never entered. *)
Definition handleSubmit (host : Host) (sheet : Sheet.t) (history : list Trade.t)
    : Clocked Submission :=
  setupData <- _getFormData host sheet ;;
  let validationResult := _validateFormData setupData in
  if negb (Verdict.isValid validationResult)
  then ret (mkSubmission false
              (Some ("Validation Error", Verdict.message validationResult)) None)
  else
    result <- predictSetup (asSetup setupData) history ;;
    match result with
    | Failure message =>
        ret (mkSubmission false (Some ("Prediction Error", message)) None)
    | Success prediction =>
        ret (mkSubmission true None (Some (_displayResults host prediction)))
    end.

(** A number that is greater than 0: a positive rational or Infinity. *)
Definition positive (a : num) : Prop :=
  a = PInf \/ exists x, a = Fin x /\ 0 < x.



(** Division by a literal, as the multiplication [lra] understands. *)
Ltac qdiv :=
  unfold Qdiv in *;
  change (/ 100) with (1 # 100) in *;
  change (/ 5) with (1 # 5) in *;
  change (/ 30) with (1 # 30) in *.

(** The same for the parts of a weight. *)
Ltac qday :=
  unfold freshness, qualityWeight, Qminus, Qdiv in *;
  change (/ inject_Z msPerDay) with (1 # 86400000) in *;
  change (/ 100) with (1 # 100) in *;
  change (/ 5) with (1 # 5) in *;
  change (/ 30) with (1 # 30) in *.

(** ** The selection and the position size on binary64 numbers *)

Module Binary64.

Local Open Scope float_scope.

(** [ToNumber] of a property that may be [undefined]. *)
Definition toNum (v : option float) : float :=
  match v with
  | Some x => x
  | None => nan
  end.

(** Truthiness of a number: both zeros and NaN are falsy. *)
Definition truthy (x : float) : bool := negb (x =? 0) && (x =? x).

Definition truthyNum (v : option float) : bool :=
  match v with
  | Some x => truthy x
  | None => false
  end.

(** The Number of an integer below 2^63 in absolute value; exact below
    2^53. *)
Definition ofInt (n : Z) : float :=
  if (n <? 0)%Z then - of_uint63 (Uint63.of_Z (- n)) else of_uint63 (Uint63.of_Z n).

(** [Math.floor].  A finite number is its mantissa times a power of two:
    with an exponent that is not negative it is an integer already;
    otherwise the mantissa, below 2^53, is divided, rounding down.  Zeros,
    infinities and NaN are returned as they are. *)
Definition floor (x : float) : float :=
  match Prim2SF x with
  | S754_finite s m e =>
      if (0 <=? e)%Z then x
      else
        let d := (2 ^ (- e))%Z in
        ofInt (if s then (- ((Z.pos m + d - 1) / d))%Z else (Z.pos m / d)%Z)
  | _ => x
  end.

Module Trade.
Record t : Type := mk {
  modelType : string;
  session : string;
  qualityScore : float;
  result : string;
  timestamp : option Z
}.
End Trade.

Module Setup.
Record t : Type := mk {
  modelType : option string;
  session : option string;
  qualityScore : option float;
  currentPrice : option float;
  volatility : option string;
  accountBalance : option float;
  maxRiskPercent : option float;
  timeframes : option (list string)
}.
End Setup.

(** The callback of both filters of [_findSimilarTrades]. *)
Definition similarWithin (tolerance : float) (setup : Setup.t) (trade : Trade.t) : bool :=
  strictEq (Trade.modelType trade) (Setup.modelType setup) &&
  strictEq (Trade.session trade) (Setup.session setup) &&
  (PrimFloat.abs (Trade.qualityScore trade - toNum (Setup.qualityScore setup)) <=? tolerance).

Definition _findSimilarTrades (setup : Setup.t) (history : list Trade.t) : list Trade.t :=
  match history with
  | [] => []
  | _ =>
      let exactMatches := filter (similarWithin 0.2 setup) history in
      if (2 <=? List.length exactMatches)%nat then slice5 exactMatches
      else slice5 (filter (similarWithin 0.5 setup) history)
  end.

Definition _calculateStopLoss (setup : Setup.t) : float :=
  let riskPercentage := 0.01 in
  toNum (Setup.currentPrice setup) * (1 - riskPercentage).

Definition _calculatePositionSize (setup : Setup.t) (stopLoss : float) : option float :=
  if negb (truthyNum (Setup.accountBalance setup))
     || negb (truthyNum (Setup.maxRiskPercent setup))
  then None
  else
    let riskAmount :=
      toNum (Setup.accountBalance setup) * (toNum (Setup.maxRiskPercent setup) / 100) in
    let stopDistance := PrimFloat.abs (toNum (Setup.currentPrice setup) - stopLoss) in
    Some (floor (riskAmount / stopDistance)).

(** The [positionSize] of a prediction: [predictSetup] passes the suggested
    stop loss. *)
Definition positionSize (setup : Setup.t) : option float :=
  _calculatePositionSize setup (_calculateStopLoss setup).

(** The quotient that [_calculatePositionSize] floors in that call. *)
Definition riskPerDistance (setup : Setup.t) : float :=
  toNum (Setup.accountBalance setup) * (toNum (Setup.maxRiskPercent setup) / 100)
  / PrimFloat.abs (toNum (Setup.currentPrice setup) - _calculateStopLoss setup).

(** A numeric property that is missing, zero or NaN. *)
Definition falsyNum (v : option float) : Prop :=
  v = None \/ exists x, v = Some x /\ ((x =? 0) = true \/ (x =? x) = false).

(** A number that is an integer and not negative: a zero, the Number of
    such an integer, or a positive mantissa times a power of two that is
    not a fraction. *)
Definition wholeNumber (y : float) : Prop :=
  (exists s, Prim2SF y = S754_zero s) \/
  (exists n, (0 <= n)%Z /\ y = ofInt n) \/
  (exists m e, (0 <= e)%Z /\ Prim2SF y = S754_finite false m e).

(** A London record and a London setup of the test suite's model type. *)
Definition london (quality : float) : Trade.t :=
  Trade.mk "FVG-RD" "London" quality "Success" None.

Definition londonSetup (quality : float) : Setup.t :=
  Setup.mk (Some "FVG-RD") (Some "London") (Some quality) (Some 100)
           None None None None.

(** A setup with the numbers of position sizing. *)
Definition sized (balance risk price : float) : Setup.t :=
  Setup.mk (Some "FVG-RD") (Some "London") (Some 4.4) (Some price)
           None (Some balance) (Some risk) None.

End Binary64.

(** * Properties *)

(** ** Numbers *)

Lemma Qle_bool_false (x y : Q) : Qle_bool x y = false <-> y < x.
Proof.
  split; intro H.
  - apply Qnot_le_lt. intro L. apply Qle_bool_iff in L. congruence.
  - destruct (Qle_bool x y) eqn:E; [| reflexivity].
    apply Qle_bool_iff in E. lra.
Qed.

Lemma Qeq_bool_false (x y : Q) : Qeq_bool x y = false <-> ~ x == y.
Proof.
  split; intro H.
  - intro E. apply Qeq_bool_iff in E. congruence.
  - destruct (Qeq_bool x y) eqn:E; [| reflexivity].
    apply Qeq_bool_iff in E. contradiction.
Qed.

Lemma div_fin (x y : Q) : ~ y == 0 -> div (Fin x) (Fin y) = Fin (x / y).
Proof.
  intro H. unfold div. now rewrite (proj2 (Qeq_bool_false y 0) H).
Qed.

Lemma max_fin (x y : Q) :
  exists z, max (Fin x) (Fin y) = Fin z /\ x <= z /\ y <= z /\ (z = x \/ z = y).
Proof.
  unfold max, leb. destruct (Qle_bool x y) eqn:E.
  - apply Qle_bool_iff in E. exists y. repeat split; auto; lra.
  - apply Qle_bool_false in E. exists x. repeat split; auto; lra.
Qed.

Lemma min_fin (x y : Q) :
  exists z, min (Fin x) (Fin y) = Fin z /\ z <= x /\ z <= y /\ (z = x \/ z = y).
Proof.
  unfold min, leb. destruct (Qle_bool x y) eqn:E.
  - apply Qle_bool_iff in E. exists x. repeat split; auto; lra.
  - apply Qle_bool_false in E. exists y. repeat split; auto; lra.
Qed.

Lemma toFixed2_fin (x : Q) : exists y, toFixed2 (Fin x) = Fin y.
Proof.
  unfold toFixed2.
  destruct (Qle_bool (inject_Z (10 ^ 21)) (Qabs x)); [eauto |].
  destruct (Qle_bool 0 x); eauto.
Qed.

(** The printed digits of a value between two hundredths lie between them. *)
Lemma hundredths_bounds (a b : Z) (x : Q) :
  inject_Z a / 100 <= x -> x <= inject_Z b / 100 ->
  (a <= hundredths x <= b)%Z.
Proof.
  intros Ha Hb. unfold hundredths. qdiv. split.
  - rewrite <- (Qfloor_Z a). apply Qfloor_resp_le. lra.
  - assert (L : inject_Z (Qfloor (x * 100 + (1 # 2))) < inject_Z (b + 1)).
    { eapply Qle_lt_trans; [apply Qfloor_le |].
      rewrite inject_Z_plus. change (inject_Z 1) with 1. lra. }
    rewrite <- Zlt_Qlt in L. lia.
Qed.

(** Rounding to two decimals keeps a value between two non-negative
    hundredths. *)
Lemma toFixed2_within (a b : Z) (x : Q) :
  (0 <= a)%Z -> (b <= 100)%Z ->
  inject_Z a / 100 <= x -> x <= inject_Z b / 100 ->
  within (inject_Z a / 100) (inject_Z b / 100) (toFixed2 (Fin x)).
Proof.
  intros Ha Hb Hax Hxb.
  assert (A0 : inject_Z 0 <= inject_Z a) by (rewrite <- Zle_Qle; exact Ha).
  assert (B100 : inject_Z b <= inject_Z 100) by (rewrite <- Zle_Qle; exact Hb).
  change (inject_Z 0) with 0 in A0. change (inject_Z 100) with 100 in B100.
  assert (X0 : 0 <= x) by (qdiv; lra).
  unfold toFixed2.
  destruct (Qle_bool (inject_Z (10 ^ 21)) (Qabs x)) eqn:Big.
  - apply Qle_bool_iff in Big. rewrite Qabs_pos in Big by exact X0.
    assert (C : inject_Z (10 ^ 21) <= inject_Z 1).
    { change (inject_Z 1) with 1. qdiv. lra. }
    rewrite <- Zle_Qle in C. lia.
  - rewrite (proj2 (Qle_bool_iff 0 x) X0). simpl.
    destruct (hundredths_bounds a b x Hax Hxb) as [L U].
    rewrite Zle_Qle in L, U. qdiv. lra.
Qed.

(** ** Weights and their average *)

Lemma within_mono (lo hi lo' hi' : Q) (a : num) :
  lo <= lo' -> hi' <= hi -> within lo' hi' a -> within lo hi a.
Proof.
  destruct a; simpl; try tauto. intros L U [A B]. split; lra.
Qed.

Lemma msPerDay_nonzero : ~ inject_Z msPerDay == 0.
Proof. intro H. vm_compute in H. discriminate. Qed.

(** The recency factor of a stamped record is a finite number from 0.8 up. *)
Lemma recency_fin (now stamp : Z) :
  exists r,
    max (Fin 0.8)
        (sub (Fin 1) (div (div (sub (ofZ now) (ofZ stamp)) (ofZ msPerDay)) (Fin 30)))
    = Fin r /\ 0.8 <= r.
Proof.
  unfold ofZ, sub, neg, add.
  rewrite (div_fin _ _ msPerDay_nonzero).
  rewrite div_fin by (intro H; vm_compute in H; discriminate).
  destruct (max_fin 0.8 (1 + - ((inject_Z now + - inject_Z stamp)
                                / inject_Z msPerDay / 30)))
    as (r & -> & L & _).
  eauto.
Qed.

Lemma weight_floored (t : Trade.t) (e : Env) (n : nat) :
  isFin (Trade.qualityScore t) ->
  floored (fst (_calculateTradeWeight t e n)).
Proof.
  unfold _calculateTradeWeight, floored, bind, ret, newDate.
  destruct (Trade.qualityScore t) as [q | | |]; simpl isFin; try contradiction.
  intros _.
  rewrite div_fin by (intro H; vm_compute in H; discriminate).
  unfold mul at 2. unfold add.
  destruct (Trade.timestamp t) as [stamp |].
  - destruct (recency_fin (wall e n) stamp) as (r & -> & _).
    unfold mul.
    destruct (toFixed2_fin ((0.2 + q / 5 * 1.3) * r)) as (y & ->).
    destruct (max_fin 0.2 y) as (z & -> & L & _). simpl. eauto.
  - unfold mul.
    destruct (toFixed2_fin ((0.2 + q / 5 * 1.3) * 1)) as (y & ->).
    destruct (max_fin 0.2 y) as (z & -> & L & _). simpl. eauto.
Qed.

Lemma mapM_length {A B : Type} (f : A -> Clocked B) (xs : list A) (e : Env) (n : nat) :
  List.length (fst (mapM f xs e n)) = List.length xs.
Proof.
  revert n. induction xs as [| x xs IH]; intro n; simpl; [reflexivity |].
  unfold bind, ret. destruct (f x e n) as [y n'].
  specialize (IH n'). destruct (mapM f xs e n') as [ys n'']. simpl in *.
  now rewrite IH.
Qed.

Lemma mapM_Forall {A B : Type} (f : A -> Clocked B) (P : A -> Prop) (R : B -> Prop)
    (xs : list A) (e : Env) :
  (forall x k, P x -> R (fst (f x e k))) ->
  Forall P xs -> forall n, Forall R (fst (mapM f xs e n)).
Proof.
  intros Hf Hxs. induction Hxs as [| x xs Hx _ IH]; intro n; simpl.
  - constructor.
  - unfold bind, ret. pose proof (Hf x n Hx) as Hy.
    destruct (f x e n) as [y n'].
    specialize (IH n'). destruct (mapM f xs e n') as [ys n'']. simpl in *.
    now constructor.
Qed.

Lemma sum_floored (ws : list num) :
  Forall floored ws ->
  forall a, exists s,
    fold_left add ws (Fin a) = Fin s /\
    a + 0.2 * inject_Z (Z.of_nat (List.length ws)) <= s.
Proof.
  induction 1 as [| w ws (q & -> & Hq) _ IH]; intro a; simpl fold_left.
  - exists a. split; [reflexivity |].
    change (inject_Z (Z.of_nat (@List.length num []))) with 0. lra.
  - destruct (IH (a + q)) as (s & -> & Hs). exists s. split; [reflexivity |].
    change (List.length (Fin q :: ws)) with (S (List.length ws)).
    rewrite Nat2Z.inj_succ. unfold Z.succ. rewrite inject_Z_plus.
    change (inject_Z 1) with 1. lra.
Qed.

Lemma ofNat_pos (n : nat) : (0 < n)%nat -> 0 < inject_Z (Z.of_nat n).
Proof.
  intro H. change 0 with (inject_Z 0). rewrite <- Zlt_Qlt. lia.
Qed.

(** The average of floored weights is itself at least 0.2. *)
Lemma avg_floored (ws : list num) :
  ws <> [] -> Forall floored ws ->
  exists v, div (sumWeights ws) (ofNat (List.length ws)) = Fin v /\ 0.2 <= v.
Proof.
  intros Hne Hws. unfold sumWeights, ofNat.
  destruct (sum_floored ws Hws 0) as (s & -> & Hs).
  assert (Hlen : 0 < inject_Z (Z.of_nat (List.length ws))).
  { apply ofNat_pos. destruct ws; [congruence | simpl; lia]. }
  rewrite div_fin by lra.
  eexists. split; [reflexivity |].
  apply Qle_shift_div_l; [exact Hlen | lra].
Qed.

(** With an average of at least 0.2 the lower clamp does nothing, and the
    rounded confidence stays between 0.2 and 1. *)
Lemma clamp_idle (v : Q) :
  0.2 <= v -> max (Fin 0.15) (min (Fin v) (Fin 1)) = min (Fin v) (Fin 1).
Proof.
  intro Hv. destruct (min_fin v 1) as (m & -> & _ & _ & [-> | ->]);
    unfold max, leb.
  - now rewrite (proj2 (Qle_bool_iff 0.15 v)) by lra.
  - reflexivity.
Qed.

Lemma confidence_within (v : Q) :
  0.2 <= v -> within 0.2 1 (toFixed2 (max (Fin 0.15) (min (Fin v) (Fin 1)))).
Proof.
  intro Hv. rewrite (clamp_idle v Hv).
  destruct (min_fin v 1) as (m & -> & Hm1 & Hm2 & Hm).
  apply (within_mono _ _ (inject_Z 20 / 100) (inject_Z 100 / 100));
    [apply Qle_bool_iff; reflexivity | apply Qle_bool_iff; reflexivity |].
  apply toFixed2_within; try lia.
  - change (inject_Z 20 / 100) with (20 * (1 # 100)). destruct Hm as [-> | ->]; lra.
  - change (inject_Z 100 / 100) with (100 * (1 # 100)). lra.
Qed.

(** A share of successes, rounded, is a probability. *)
Lemma ratio_within (k n : nat) :
  (k <= n)%nat -> (0 < n)%nat ->
  within 0 1 (toFixed2 (div (ofNat k) (ofNat n))).
Proof.
  intros Hk Hn. unfold ofNat.
  pose proof (ofNat_pos n Hn) as Pn.
  assert (Pk : 0 <= inject_Z (Z.of_nat k)).
  { change 0 with (inject_Z 0). rewrite <- Zle_Qle. lia. }
  assert (Pkn : inject_Z (Z.of_nat k) <= inject_Z (Z.of_nat n)).
  { rewrite <- Zle_Qle. lia. }
  rewrite div_fin by lra.
  apply (within_mono _ _ (inject_Z 0 / 100) (inject_Z 100 / 100));
    [apply Qle_bool_iff; reflexivity | apply Qle_bool_iff; reflexivity |].
  apply toFixed2_within; try lia.
  - assert (E : inject_Z 0 / 100 == 0) by reflexivity. rewrite E.
    apply Qle_shift_div_l; [exact Pn | lra].
  - assert (E : inject_Z 100 / 100 == 1) by reflexivity. rewrite E.
    apply Qle_shift_div_r; [exact Pn | lra].
Qed.

(** ** Matching and scoring *)

Lemma similar_isFin (tol : Q) (setup : Setup.t) (t : Trade.t) :
  similarWithin tol setup t = true -> isFin (Trade.qualityScore t).
Proof.
  unfold similarWithin. intro H.
  apply andb_true_iff in H as [_ H].
  destruct (Trade.qualityScore t) as [q | | |]; simpl; auto;
    destruct (toNum (Setup.qualityScore setup)); simpl in H; discriminate.
Qed.

Lemma slice_In {A : Type} (k : nat) (xs : list A) (x : A) :
  In x (firstn k xs) -> In x xs.
Proof.
  revert k. induction xs as [| y ys IH]; intros [| k]; simpl; try tauto.
  intros [-> | H]; [now left | right; eauto].
Qed.

Lemma findSimilar_In (setup : Setup.t) (history : list Trade.t) (t : Trade.t) :
  In t (_findSimilarTrades setup history) ->
  In t history /\
  (similarWithin 0.2 setup t = true \/ similarWithin 0.5 setup t = true).
Proof.
  unfold _findSimilarTrades, slice5.
  destruct history as [| h hs]; [intros [] |].
  destruct (2 <=? _)%nat; intro H; apply slice_In in H;
    apply filter_In in H as [Hin Hs]; auto.
Qed.

Lemma findSimilar_isFin (setup : Setup.t) (history : list Trade.t) :
  Forall (fun t => isFin (Trade.qualityScore t)) (_findSimilarTrades setup history).
Proof.
  apply Forall_forall. intros t H.
  apply findSimilar_In in H as [_ [H | H]]; eapply similar_isFin; exact H.
Qed.

(** What [_calculateProbability] returns on a list that is not empty. *)
Lemma calculateProbability_cons (t : Trade.t) (ts : list Trade.t) (e : Env) (n : nat) :
  fst (_calculateProbability (t :: ts) e n) =
  let weights := fst (mapM _calculateTradeWeight (t :: ts) e n) in
  let avgQuality := div (sumWeights weights) (ofNat (List.length weights)) in
  (toFixed2 (div (ofNat (List.length (filter isSuccess (t :: ts))))
                 (ofNat (List.length (t :: ts)))),
   toFixed2 (max (Fin 0.15) (min avgQuality (Fin 1)))).
Proof.
  unfold _calculateProbability, bind, ret.
  destruct (mapM _calculateTradeWeight (t :: ts) e n) as [ws n']. reflexivity.
Qed.

Lemma weights_floored (ts : list Trade.t) (e : Env) (n : nat) :
  Forall (fun t => isFin (Trade.qualityScore t)) ts ->
  Forall floored (fst (mapM _calculateTradeWeight ts e n)).
Proof.
  intro H. apply (mapM_Forall _ (fun t => isFin (Trade.qualityScore t))); auto.
  intros x k Hx. now apply weight_floored.
Qed.

Lemma weights_nonempty (ts : list Trade.t) (e : Env) (n : nat) :
  ts <> [] -> fst (mapM _calculateTradeWeight ts e n) <> [].
Proof.
  intros H E. apply H. apply length_zero_iff_nil.
  rewrite <- (mapM_length _calculateTradeWeight ts e n), E. reflexivity.
Qed.

Lemma calculateProbability_bounds (ts : list Trade.t) (e : Env) (n : nat) :
  ts <> [] ->
  Forall (fun t => isFin (Trade.qualityScore t)) ts ->
  within 0 1 (fst (fst (_calculateProbability ts e n))) /\
  within 0.2 1 (snd (fst (_calculateProbability ts e n))).
Proof.
  intros Hne Hfin. destruct ts as [| t ts]; [congruence |].
  rewrite calculateProbability_cons. cbv zeta. split.
  - apply ratio_within; [apply filter_length_le | simpl; lia].
  - destruct (avg_floored (fst (mapM _calculateTradeWeight (t :: ts) e n)))
      as (v & -> & Hv).
    + now apply weights_nonempty.
    + now apply weights_floored.
    + now apply confidence_within.
Qed.

(** A setup that passes validation gets an answer with a prediction, whose
    fields are the values the helpers compute. *)
Lemma predictSetup_valid (setup : Setup.t) (history : list Trade.t) (e : Env) (n : nat) :
  _validateSetup setup = true ->
  let scored := _calculateProbability (_findSimilarTrades setup history) e n in
  run (predictSetup setup history) e n =
  Success
    {| probability := fst (fst scored);
       confidence := snd (fst scored);
       recommendedEntry := _calculateEntry setup;
       suggestedStopLoss := _calculateStopLoss setup;
       adjustedStopLoss := _adjustForVolatility setup (_calculateStopLoss setup);
       timeframeAlignment := _analyzeTimeframes setup;
       positionSize := _calculatePositionSize setup (_calculateStopLoss setup);
       timestamp := formatDate e (wall e (snd scored)) |}.
Proof.
  intro V. unfold run, predictSetup. rewrite V.
  unfold bind, ret, newDate, format. cbv beta iota zeta delta [negb].
  destruct (_calculateProbability (_findSimilarTrades setup history) e n) as [[p c] n'].
  reflexivity.
Qed.

Lemma predictSetup_invalid (setup : Setup.t) (history : list Trade.t) (e : Env) (n : nat) :
  _validateSetup setup = false ->
  run (predictSetup setup history) e n = Failure "Invalid setup data".
Proof.
  intro V. unfold run, predictSetup. now rewrite V.
Qed.

(** ** C1 *)

(** C1. For every setup that passes validation and every history, whatever
    the clock reads, the prediction [predictSetup] returns has a
    probability between 0 and 1 and a confidence between 0.1 and 1. *)
Theorem C1_probability_confidence_ranges
    (setup : Setup.t) (history : list Trade.t) (e : Env) (n : nat) :
  _validateSetup setup = true ->
  exists p,
    run (predictSetup setup history) e n = Success p /\
    within 0 1 (probability p) /\
    within 0.1 1 (confidence p).
Proof.
  intro V. rewrite (predictSetup_valid setup history e n V). cbv zeta.
  eexists. split; [reflexivity |]. simpl.
  destruct (_findSimilarTrades setup history) as [| t ts] eqn:E.
  - simpl. repeat split; lra.
  - destruct (calculateProbability_bounds (t :: ts) e n) as [P C].
    + discriminate.
    + rewrite <- E. apply findSimilar_isFin.
    + split; [exact P |].
      apply (within_mono _ _ 0.2 1); [lra | lra | exact C].
Qed.

Lemma C1_witness :
  exists p,
    run (predictSetup Scenario.setupA Scenario.historyA) Scenario.still 0 = Success p /\
    within 0 1 (probability p) /\
    within 0.1 1 (confidence p).
Proof.
  apply (C1_probability_confidence_ranges Scenario.setupA Scenario.historyA Scenario.still 0).
  reflexivity.
Defined.

(** ** C2 *)

Lemma strictEq_iff (field : string) (setupField : option string) :
  strictEq field setupField = true <-> setupField = Some field.
Proof.
  unfold strictEq. destruct setupField as [s |].
  - rewrite String.eqb_eq. split; [intros -> | intros [= ->]]; reflexivity.
  - split; discriminate.
Qed.



Lemma similarWithin_binary64 (tol : float) (setup : Binary64.Setup.t)
    (record : Binary64.Trade.t) :
  Binary64.similarWithin tol setup record = true <->
  Binary64.Setup.modelType setup = Some (Binary64.Trade.modelType record) /\
  Binary64.Setup.session setup = Some (Binary64.Trade.session record) /\
  PrimFloat.leb
    (PrimFloat.abs (PrimFloat.sub (Binary64.Trade.qualityScore record)
                      (Binary64.toNum (Binary64.Setup.qualityScore setup))))
    tol = true.
Proof.
  unfold Binary64.similarWithin.
  rewrite !andb_true_iff, !strictEq_iff. tauto.
Qed.

(** C2 as stated fails: the scores 4.2 and 4.4 are 0.2 apart, but the
    difference the code computes is 0.20000000000000018, which is more
    than 0.2.  So the record is not in the first tier, and of the history
    of two records at 4.2 and one at 4.8 the code returns all three, from
    the second tier, not the two at 4.2. *)
Lemma C2_counterexample :
  Qabs (4.2 - 4.4) <= 0.2 /\
  ~ Qabs (4.8 - 4.4) <= 0.2 /\
  Binary64.similarWithin 0.2%float (Binary64.londonSetup 4.4%float)
    (Binary64.london 4.2%float) = false /\
  Binary64._findSimilarTrades (Binary64.londonSetup 4.4%float)
    [Binary64.london 4.2%float; Binary64.london 4.2%float; Binary64.london 4.8%float]
  = [Binary64.london 4.2%float; Binary64.london 4.2%float; Binary64.london 4.8%float].
Proof.
  split; [vm_compute; discriminate |].
  split; [intro H; vm_compute in H; apply H; reflexivity |].
  split; vm_compute; reflexivity.
Qed.

(** The tolerance test at some decimal scores: 4.6 against 4.4 passes the
    test at 0.2 and 4.2 against 4.4 does not; 0.2 against 0 passes it, the
    computed difference being 0.2 itself; 3.9 against 4.4 fails the test at
    0.5 and 4.9 against 4.4 passes it. *)
Lemma tolerance_by_computation :
  Binary64.similarWithin 0.2%float (Binary64.londonSetup 4.4%float)
    (Binary64.london 4.6%float) = true /\
  Binary64.similarWithin 0.2%float (Binary64.londonSetup 4.4%float)
    (Binary64.london 4.2%float) = false /\
  Binary64.similarWithin 0.2%float (Binary64.londonSetup 0%float)
    (Binary64.london 0.2%float) = true /\
  PrimFloat.abs (PrimFloat.sub 0.2%float 0%float) = 0.2%float /\
  Binary64.similarWithin 0.5%float (Binary64.londonSetup 4.4%float)
    (Binary64.london 3.9%float) = false /\
  Binary64.similarWithin 0.5%float (Binary64.londonSetup 4.4%float)
    (Binary64.london 4.9%float) = true.
Proof. repeat split; vm_compute; reflexivity. Qed.

(** C2, amended. The similarity selection keeps, in the order of the
    history, the records of the same model type and session for which the
    difference [Math.abs(a - b)], as binary64 computes it, is at most 0.2
    (a record whose computed difference is exactly 0.2 is kept); with two
    or more of them it returns the first five at most, and otherwise the
    first five at most of the records that pass the same test with a
    tolerance of 0.5. *)
Theorem C2_two_tier_selection_binary64
    (setup : Binary64.Setup.t) (history : list Binary64.Trade.t) :
  let difference record :=
    PrimFloat.abs (PrimFloat.sub (Binary64.Trade.qualityScore record)
                     (Binary64.toNum (Binary64.Setup.qualityScore setup))) in
  let tier1 := filter (Binary64.similarWithin 0.2%float setup) history in
  let tier2 := filter (Binary64.similarWithin 0.5%float setup) history in
  (forall tol record,
      In record (filter (Binary64.similarWithin tol setup) history) <->
      In record history /\
      Binary64.Setup.modelType setup = Some (Binary64.Trade.modelType record) /\
      Binary64.Setup.session setup = Some (Binary64.Trade.session record) /\
      PrimFloat.leb (difference record) tol = true) /\
  (forall record,
      In record history ->
      Binary64.Setup.modelType setup = Some (Binary64.Trade.modelType record) ->
      Binary64.Setup.session setup = Some (Binary64.Trade.session record) ->
      difference record = 0.2%float ->
      In record tier1) /\
  Binary64._findSimilarTrades setup history =
    if (2 <=? List.length tier1)%nat then firstn 5 tier1 else firstn 5 tier2.
Proof.
  cbv zeta. split; [| split].
  - intros tol record. rewrite filter_In, similarWithin_binary64. tauto.
  - intros record Hin Hm Hs Hd.
    apply filter_In. split; [exact Hin |].
    apply similarWithin_binary64. repeat split; auto.
    rewrite Hd. reflexivity.
  - unfold Binary64._findSimilarTrades, slice5. destruct history; reflexivity.
Qed.

(** ** C3 *)

Lemma truthyStr_false (s : option string) :
  truthyStr s = false <-> emptyOrMissing s.
Proof.
  unfold truthyStr, emptyOrMissing. destruct s as [s |].
  - rewrite negb_false_iff, String.eqb_eq.
    split; [intros -> | intros [| [= ->]]]; auto; discriminate.
  - tauto.
Qed.

Lemma scoreCheck_true (v : option num) :
  match v with
  | Some q => geb q (Fin 0) && leb q (Fin 5)
  | None => false
  end = true <-> scoreInRange v.
Proof.
  unfold scoreInRange, geb. split.
  - destruct v as [[x | | |] |]; simpl; try discriminate.
    intro H. apply andb_true_iff in H as [L U].
    apply Qle_bool_iff in L, U. eauto.
  - intros (x & -> & L & U). simpl.
    apply andb_true_iff. split; apply Qle_bool_iff; assumption.
Qed.

Lemma validateSetup_false (setup : Setup.t) :
  _validateSetup setup = false <->
  emptyOrMissing (Setup.modelType setup) \/
  emptyOrMissing (Setup.session setup) \/
  ~ scoreInRange (Setup.qualityScore setup).
Proof.
  unfold _validateSetup.
  rewrite !andb_false_iff, !truthyStr_false, <- scoreCheck_true.
  rewrite not_true_iff_false. tauto.
Qed.

(** C3. [predictSetup] answers with the validation failure exactly when the
    model type is empty or missing, the session is empty or missing, or the
    quality score is not a number from 0 to 5; it has no other failure; and
    a setup with a model type and a session whose quality score is exactly
    0 or exactly 5 gets a prediction, whatever the history, the price and
    the balance. *)
Theorem C3_validation_is_the_only_failure
    (setup : Setup.t) (history : list Trade.t) (e : Env) (n : nat) :
  (run (predictSetup setup history) e n = Failure "Invalid setup data" <->
   emptyOrMissing (Setup.modelType setup) \/
   emptyOrMissing (Setup.session setup) \/
   ~ scoreInRange (Setup.qualityScore setup)) /\
  (forall message,
      run (predictSetup setup history) e n = Failure message ->
      message = "Invalid setup data") /\
  (~ emptyOrMissing (Setup.modelType setup) ->
   ~ emptyOrMissing (Setup.session setup) ->
   Setup.qualityScore setup = Some (Fin 0) \/ Setup.qualityScore setup = Some (Fin 5) ->
   exists p, run (predictSetup setup history) e n = Success p).
Proof.
  rewrite <- validateSetup_false.
  destruct (_validateSetup setup) eqn:V.
  - rewrite (predictSetup_valid setup history e n V). cbv zeta.
    repeat split; try discriminate. eauto.
  - rewrite (predictSetup_invalid setup history e n V).
    split; [tauto |]. split; [intros message [= <-]; reflexivity |].
    intros Hm Hs Hq. exfalso.
    apply validateSetup_false in V as [V | [V | V]]; try contradiction.
    apply V. destruct Hq as [-> | ->]; eexists; (split; [reflexivity | lra]).
Qed.

(** ** C4 and C5: the two examples of the test suite *)

(** C4. On the history of two successful London records of quality 4.5 and
    4.3 and the setup of quality 4.4, [predictSetup] returns probability 1
    and, from the weights 1.37 and 1.32, confidence 1: not the 0.2 that the
    test suite expects. *)
Theorem C4_scenarioA_confidence_is_one (e : Env) (n : nat) :
  exists p,
    run (predictSetup Scenario.setupA Scenario.historyA) e n = Success p /\
    probability p ~= Fin 1 /\
    confidence p ~= Fin 1 /\
    ~ confidence p ~= Fin 0.2.
Proof.
  rewrite (predictSetup_valid Scenario.setupA Scenario.historyA e n eq_refl).
  cbv zeta. eexists. split; [reflexivity |].
  repeat split; vm_compute; discriminate || reflexivity.
Qed.

(** C5. On the history of one successful Asian record of quality 4.0 and
    the setup of the same quality, [predictSetup] returns, from the single
    weight 1.24, confidence 1: not the 0.1 that the test suite expects. *)
Theorem C5_scenarioB_confidence_is_one (e : Env) (n : nat) :
  exists p,
    run (predictSetup Scenario.setupB Scenario.historyB) e n = Success p /\
    confidence p ~= Fin 1 /\
    ~ confidence p ~= Fin 0.1.
Proof.
  rewrite (predictSetup_valid Scenario.setupB Scenario.historyB e n eq_refl).
  cbv zeta. eexists. split; [reflexivity |].
  repeat split; vm_compute; discriminate || reflexivity.
Qed.

(** ** C6 *)





(** ** C7 *)




(** ** C8 *)

Lemma truthyNum_false (v : option num) :
  truthyNum v = false <-> absentOrZero v.
Proof.
  unfold truthyNum, absentOrZero, truthy. split.
  - destruct v as [[x | | |] |]; try discriminate; auto.
    rewrite negb_false_iff, Qeq_bool_iff. intro H. right. right. eauto.
  - intros [-> | [-> | (x & -> & H)]]; try reflexivity.
    rewrite negb_false_iff. now apply Qeq_bool_iff.
Qed.

Lemma positionSize_None (setup : Setup.t) (stopLoss : num) :
  _calculatePositionSize setup stopLoss = None <->
  absentOrZero (Setup.accountBalance setup) \/
  absentOrZero (Setup.maxRiskPercent setup).
Proof.
  unfold _calculatePositionSize. rewrite <- !truthyNum_false.
  destruct (truthyNum (Setup.accountBalance setup)),
           (truthyNum (Setup.maxRiskPercent setup)); simpl;
    intuition discriminate.
Qed.


(** C8 as stated fails: with a balance of 10000, a risk of 1 and a price of
    0 the stop distance is 0, not positive, and the position size is not
    null: the quotient by zero is floored to Infinity. *)
Lemma C8_counterexample :
  stopDistance Scenario.setupZeroPrice ~= Fin 0 /\
  ~ below (Fin 0) (stopDistance Scenario.setupZeroPrice) /\
  exists p,
    run (predictSetup Scenario.setupZeroPrice Scenario.historyA) Scenario.still 0
      = Success p /\
    positionSize p = Some PInf /\
    positionSize p <> None.
Proof.
  split; [vm_compute; reflexivity |].
  split; [vm_compute; discriminate |].
  rewrite (predictSetup_valid Scenario.setupZeroPrice Scenario.historyA
             Scenario.still 0 eq_refl).
  cbv zeta. eexists. split; [reflexivity |].
  split; [vm_compute; reflexivity | vm_compute; discriminate].
Qed.

Lemma truthyNum_binary64 (v : option float) :
  Binary64.truthyNum v = false <-> Binary64.falsyNum v.
Proof.
  unfold Binary64.truthyNum, Binary64.falsyNum, Binary64.truthy. split.
  - destruct v as [x |]; [| auto]. intro H. right. exists x. split; [reflexivity |].
    apply andb_false_iff in H as [H | H]; [left | right; exact H].
    now apply negb_false_iff.
  - intros [-> | (x & -> & [H | H])]; [reflexivity | |].
    + rewrite H. reflexivity.
    + rewrite H. apply andb_false_r.
Qed.

Lemma floor_whole (q : float) (m : BinNums.positive) (e : Z) :
  Prim2SF q = S754_finite false m e -> Binary64.wholeNumber (Binary64.floor q).
Proof.
  intro H. unfold Binary64.wholeNumber, Binary64.floor. rewrite H.
  destruct (0 <=? e)%Z eqn:E.
  - right. right. exists m, e. split; [now apply Z.leb_le | exact H].
  - right. left. eexists. split; [| reflexivity].
    apply Z.div_pos; [lia |]. apply Z.pow_pos_nonneg; [lia |].
    apply Z.leb_gt in E. lia.
Qed.

(** The position size on the numbers of the test suite and at three
    others: a balance of 100 at a price of 1 gives 99, since the stop
    distance is computed as 0.010000000000000009; a balance of 3 at a price
    of 3 gives 0; a price of 0 gives Infinity. *)
Lemma positionSize_by_computation :
  Binary64.positionSize (Binary64.sized 10000 1 100) = Some 100%float /\
  Binary64.positionSize (Binary64.sized 100 1 1) = Some 99%float /\
  Binary64.positionSize (Binary64.sized 3 1 3) = Some 0%float /\
  Binary64.positionSize (Binary64.sized 10000 1 0) = Some infinity.
Proof. repeat split; vm_compute; reflexivity. Qed.

(** C8, amended. The position size is null exactly when the account
    balance or the maximal risk is missing, zero or NaN.  Otherwise it is
    [Math.floor] of the quotient accountBalance * (maxRiskPercent / 100) /
    |currentPrice - suggestedStopLoss| as binary64 computes it: an integer
    that is not negative when that quotient is a positive finite number,
    and the quotient itself when it is a zero, an infinity or NaN. *)
Theorem C8_position_size_binary64 (setup : Binary64.Setup.t) :
  let quotient := Binary64.riskPerDistance setup in
  (Binary64.positionSize setup = None <->
   Binary64.falsyNum (Binary64.Setup.accountBalance setup) \/
   Binary64.falsyNum (Binary64.Setup.maxRiskPercent setup)) /\
  (Binary64.positionSize setup <> None ->
   Binary64.positionSize setup = Some (Binary64.floor quotient)) /\
  (forall m e, Prim2SF quotient = S754_finite false m e ->
               Binary64.wholeNumber (Binary64.floor quotient)) /\
  ((forall s m e, Prim2SF quotient <> S754_finite s m e) ->
   Binary64.floor quotient = quotient).
Proof.
  cbv zeta.
  unfold Binary64.positionSize, Binary64._calculatePositionSize.
  rewrite <- !truthyNum_binary64.
  split; [| split; [| split]].
  - destruct (Binary64.truthyNum (Binary64.Setup.accountBalance setup)),
             (Binary64.truthyNum (Binary64.Setup.maxRiskPercent setup)); simpl;
      intuition discriminate.
  - destruct (negb _ || negb _); [congruence | reflexivity].
  - intros m e. apply floor_whole.
  - intro H. unfold Binary64.floor.
    destruct (Prim2SF (Binary64.riskPerDistance setup)) as [z | i | | s' m' e'];
      try reflexivity.
    exfalso. apply (H s' m' e'). reflexivity.
Qed.

(** At the numbers of the test suite, a balance of 10000, a risk of 1 and
    a price of 100, the position size is there and it is an integer. *)
Lemma C8_witness_binary64 :
  Binary64.positionSize (Binary64.sized 10000 1 100) <> None /\
  Binary64.positionSize (Binary64.sized 10000 1 100)
    = Some (Binary64.floor (Binary64.riskPerDistance (Binary64.sized 10000 1 100))) /\
  Binary64.wholeNumber
    (Binary64.floor (Binary64.riskPerDistance (Binary64.sized 10000 1 100))).
Proof.
  destruct (C8_position_size_binary64 (Binary64.sized 10000 1 100))
    as (_ & Hsome & Hwhole & _).
  assert (N : Binary64.positionSize (Binary64.sized 10000 1 100) <> None)
    by (vm_compute; discriminate).
  split; [exact N |]. split; [exact (Hsome N) |].
  apply (Hwhole 7036874417766400%positive (-46)%Z). vm_compute. reflexivity.
Defined.

(** ** C9 *)










(** ** C10 *)



(** * Further properties of the module *)

(** ** The selection *)

Lemma Subseq_refl {A : Type} (xs : list A) : Subseq xs xs.
Proof. induction xs; [constructor | now apply Subseq_keep]. Qed.

Lemma Subseq_trans {A : Type} (xs ys zs : list A) :
  Subseq xs ys -> Subseq ys zs -> Subseq xs zs.
Proof.
  intros H1 H2. revert xs H1.
  induction H2 as [| z ys zs _ IH | z ys zs _ IH]; intros xs H1.
  - exact H1.
  - apply Subseq_skip. now apply IH.
  - inversion H1; subst; [apply Subseq_skip | apply Subseq_keep]; now apply IH.
Qed.

Lemma Subseq_filter {A : Type} (f : A -> bool) (xs : list A) :
  Subseq (filter f xs) xs.
Proof.
  induction xs as [| x xs IH]; simpl; [constructor |].
  destruct (f x); [apply Subseq_keep | apply Subseq_skip]; assumption.
Qed.

Lemma Subseq_empty {A : Type} (xs : list A) : Subseq [] xs.
Proof. induction xs; constructor; assumption. Qed.

Lemma Subseq_firstn {A : Type} (k : nat) (xs : list A) :
  Subseq (firstn k xs) xs.
Proof.
  revert k. induction xs as [| x xs IH]; intros [| k]; simpl.
  - constructor.
  - constructor.
  - apply Subseq_empty.
  - apply Subseq_keep, IH.
Qed.

Lemma Subseq_map_filter {A : Type} (f : A -> bool) (xs ys : list A) :
  Subseq xs ys -> Subseq (filter f xs) (filter f ys).
Proof.
  induction 1 as [| y xs ys _ IH | y xs ys _ IH]; simpl.
  - constructor.
  - destruct (f y); [apply Subseq_skip |]; assumption.
  - destruct (f y); [apply Subseq_keep |]; assumption.
Qed.

Lemma Subseq_length {A : Type} (xs ys : list A) :
  Subseq xs ys -> (List.length xs <= List.length ys)%nat.
Proof. induction 1; simpl; lia. Qed.

Lemma findSimilar_Subseq (setup : Setup.t) (history : list Trade.t) :
  Subseq (_findSimilarTrades setup history) history.
Proof.
  unfold _findSimilarTrades, slice5. destruct history as [| h hs]; [constructor |].
  destruct (2 <=? _)%nat;
    (eapply Subseq_trans; [apply Subseq_firstn | apply Subseq_filter]).
Qed.

Lemma findSimilar_length (setup : Setup.t) (history : list Trade.t) :
  (List.length (_findSimilarTrades setup history) <= 5)%nat.
Proof.
  unfold _findSimilarTrades, slice5. destruct history as [| h hs]; [simpl; lia |].
  destruct (2 <=? _)%nat; apply firstn_le_length.
Qed.


Lemma filter_all {A : Type} (f : A -> bool) (xs : list A) :
  (forall x, In x xs -> f x = true) -> filter f xs = xs.
Proof.
  induction xs as [| x xs IH]; intro H; simpl; [reflexivity |].
  rewrite (H x) by now left. f_equal. apply IH. intros y Hy. apply H. now right.
Qed.

Lemma firstn_short {A : Type} (k : nat) (xs : list A) :
  (List.length xs <= k)%nat -> firstn k xs = xs.
Proof.
  revert k. induction xs as [| x xs IH]; intros [| k] H; simpl in *;
    try reflexivity; try lia.
  f_equal. apply IH. lia.
Qed.


(** X2. Selecting again from a selection changes nothing:
    [_findSimilarTrades] applied to its own result returns that result. *)
Theorem X2_selection_idempotent (setup : Setup.t) (history : list Trade.t) :
  _findSimilarTrades setup (_findSimilarTrades setup history) =
  _findSimilarTrades setup history.
Proof.
  pose proof (findSimilar_length setup history) as Hlen.
  pose proof (findSimilar_Subseq setup history) as Hsub.
  remember (_findSimilarTrades setup history) as R eqn:ER.
  destruct R as [| r R']; [reflexivity |].
  unfold _findSimilarTrades at 1. unfold slice5.
  destruct history as [| h hs]; [discriminate |].
  unfold _findSimilarTrades, slice5 in ER.
  destruct (2 <=? List.length (filter (similarWithin 0.2 setup) (h :: hs)))%nat eqn:E.
  - assert (All : forall x, In x (r :: R') -> similarWithin 0.2 setup x = true).
    { intros x Hx. rewrite ER in Hx. apply slice_In in Hx.
      now apply filter_In in Hx. }
    rewrite (filter_all _ _ All).
    assert (L2 : (2 <=? List.length (r :: R'))%nat = true).
    { apply Nat.leb_le. rewrite ER, length_firstn.
      apply Nat.leb_le in E. lia. }
    rewrite L2. now apply firstn_short.
  - assert (All : forall x, In x (r :: R') -> similarWithin 0.5 setup x = true).
    { intros x Hx. rewrite ER in Hx. apply slice_In in Hx.
      now apply filter_In in Hx. }
    assert (L2 : (2 <=? List.length (filter (similarWithin 0.2 setup) (r :: R')))%nat
                 = false).
    { apply Nat.leb_gt. apply Nat.leb_gt in E.
      pose proof (Subseq_length _ _
                    (Subseq_map_filter (similarWithin 0.2 setup) _ _ Hsub)).
      lia. }
    rewrite L2, (filter_all _ _ All). now apply firstn_short.
Qed.

Lemma findSimilar_binary64_Subseq (setup : Binary64.Setup.t)
    (history : list Binary64.Trade.t) :
  Subseq (Binary64._findSimilarTrades setup history) history.
Proof.
  unfold Binary64._findSimilarTrades, slice5.
  destruct history as [| h hs]; [constructor |].
  destruct (2 <=? _)%nat;
    (eapply Subseq_trans; [apply Subseq_firstn | apply Subseq_filter]).
Qed.

(** X3. The two tiers do not mix, on the test as binary64 computes it: as
    soon as two records of the history pass the test with tolerance 0.2,
    at least two records are returned and every one of them passes it,
    even when fewer than five are returned; otherwise at most one of the
    returned records passes it. *)
Theorem X3_tiers_do_not_mix
    (setup : Binary64.Setup.t) (history : list Binary64.Trade.t) :
  let exact := filter (Binary64.similarWithin 0.2%float setup) history in
  let selected := Binary64._findSimilarTrades setup history in
  ((2 <= List.length exact)%nat ->
   (2 <= List.length selected)%nat /\
   forall record, In record selected ->
                  Binary64.similarWithin 0.2%float setup record = true) /\
  ((List.length exact < 2)%nat ->
   (List.length (filter (Binary64.similarWithin 0.2%float setup) selected) <= 1)%nat).
Proof.
  cbv zeta. split; intro H.
  - unfold Binary64._findSimilarTrades, slice5.
    destruct history as [| h hs]; [simpl in H; lia |].
    rewrite (proj2 (Nat.leb_le _ _) H). split.
    + rewrite length_firstn. lia.
    + intros record Hr. apply slice_In in Hr. now apply filter_In in Hr.
  - pose proof (Subseq_length _ _
                  (Subseq_map_filter (Binary64.similarWithin 0.2%float setup) _ _
                     (findSimilar_binary64_Subseq setup history))).
    lia.
Qed.

(** ** The share of successes *)

Lemma toFixed2_small (x : Q) :
  0 <= x -> x < inject_Z (10 ^ 21) ->
  toFixed2 (Fin x) = Fin (inject_Z (hundredths x) / 100).
Proof.
  intros H0 H1. unfold toFixed2.
  rewrite (proj2 (Qle_bool_false (inject_Z (10 ^ 21)) (Qabs x)))
    by (rewrite Qabs_pos; assumption).
  now rewrite (proj2 (Qle_bool_iff 0 x) H0).
Qed.










(** ** Weights *)

Lemma freshness_mono (stamp now1 now2 : Z) :
  (now1 <= now2)%Z -> freshness stamp now2 <= freshness stamp now1.
Proof.
  intro H. rewrite Zle_Qle in H. qday. lra.
Qed.

Lemma freshness_past (stamp now : Z) :
  (stamp <= now)%Z -> freshness stamp now <= 1.
Proof.
  intro H. rewrite Zle_Qle in H. qday. lra.
Qed.


Lemma qualityWeight_mono (q1 q2 : Q) :
  q1 <= q2 -> qualityWeight q1 <= qualityWeight q2.
Proof. intro H. qday. lra. Qed.

Lemma qualityWeight_range (q : Q) :
  0 <= q -> q <= 5 -> 0.2 <= qualityWeight q /\ qualityWeight q <= 1.5.
Proof. intros H0 H5. qday. split; lra. Qed.

(** The value of a weight: the quality part times a recency factor, rounded
    and floored. *)
Lemma weight_value (t : Trade.t) (e : Env) (n : nat) (q : Q) :
  Trade.qualityScore t = Fin q ->
  exists r,
    fst (_calculateTradeWeight t e n) =
      max (Fin 0.2) (toFixed2 (Fin (qualityWeight q * r))) /\
    match Trade.timestamp t with
    | None => r = 1
    | Some stamp =>
        0.8 <= r /\ freshness stamp (wall e n) <= r /\
        (r == 0.8 \/ r == freshness stamp (wall e n))
    end.
Proof.
  intro Hq. unfold _calculateTradeWeight, bind, ret, newDate. rewrite Hq.
  rewrite div_fin by (intro H; vm_compute in H; discriminate).
  unfold mul at 2. unfold add.
  destruct (Trade.timestamp t) as [stamp |].
  - unfold ofZ, sub, neg, add.
    rewrite (div_fin _ _ msPerDay_nonzero).
    rewrite div_fin by (intro H; vm_compute in H; discriminate).
    change (1 + - ((inject_Z (wall e n) + - inject_Z stamp) / inject_Z msPerDay / 30))
      with (freshness stamp (wall e n)).
    destruct (max_fin 0.8 (freshness stamp (wall e n))) as (r & -> & L1 & L2 & Hr).
    exists r. split; [reflexivity |].
    split; [exact L1 |]. split; [exact L2 |].
    destruct Hr as [-> | ->]; [left | right]; reflexivity.
  - exists 1. split; reflexivity.
Qed.

Lemma hundredths_mono (x y : Q) : x <= y -> (hundredths x <= hundredths y)%Z.
Proof. intro H. unfold hundredths. apply Qfloor_resp_le. lra. Qed.

Lemma hundredth_le (a b : Z) : (a <= b)%Z -> inject_Z a / 100 <= inject_Z b / 100.
Proof. intro H. rewrite Zle_Qle in H. qdiv. lra. Qed.

(** Rounding to two decimals keeps the order of non-negative values. *)
Lemma toFixed2_mono (x y : Q) :
  0 <= x -> x <= y -> notAbove (toFixed2 (Fin x)) (toFixed2 (Fin y)).
Proof.
  intros H0 Hxy. assert (Hy : 0 <= y) by lra.
  destruct (Qlt_le_dec x (inject_Z (10 ^ 21))) as [Sx | Bx];
    destruct (Qlt_le_dec y (inject_Z (10 ^ 21))) as [Sy | By].
  - rewrite !toFixed2_small by assumption. simpl.
    apply hundredth_le, hundredths_mono, Hxy.
  - rewrite (toFixed2_small x H0 Sx). unfold toFixed2.
    rewrite (proj2 (Qle_bool_iff _ _)) by (rewrite Qabs_pos; assumption).
    simpl. apply Qle_trans with (inject_Z (10 ^ 23) / 100).
    + apply hundredth_le.
      apply (hundredths_bounds 0 (10 ^ 23) x).
      * assert (E : inject_Z 0 / 100 == 0) by reflexivity. now rewrite E.
      * assert (E : inject_Z (10 ^ 23) / 100 == inject_Z (10 ^ 21)) by reflexivity.
        rewrite E. now apply Qlt_le_weak.
    + assert (E : inject_Z (10 ^ 23) / 100 == inject_Z (10 ^ 21)) by reflexivity.
      now rewrite E.
  - exfalso. apply (Qlt_irrefl x). eapply Qle_lt_trans; [exact Hxy |].
    eapply Qlt_le_trans; [exact Sy | exact Bx].
  - unfold toFixed2.
    rewrite !(proj2 (Qle_bool_iff _ _)) by (rewrite Qabs_pos; assumption).
    exact Hxy.
Qed.

Lemma max_mono (a x y : Q) :
  x <= y -> notAbove (max (Fin a) (Fin x)) (max (Fin a) (Fin y)).
Proof.
  intro H.
  destruct (max_fin a x) as (z1 & -> & _ & _ & Hz1).
  destruct (max_fin a y) as (z2 & -> & La & Ly & _).
  simpl. destruct Hz1 as [-> | ->]; lra.
Qed.

(** Rounding and flooring keep the order of non-negative products. *)
Lemma floored_mono (x y : Q) :
  0 <= x -> x <= y ->
  notAbove (max (Fin 0.2) (toFixed2 (Fin x))) (max (Fin 0.2) (toFixed2 (Fin y))).
Proof.
  intros H0 H. pose proof (toFixed2_mono x y H0 H) as M.
  destruct (toFixed2_fin x) as (x' & Ex). destruct (toFixed2_fin y) as (y' & Ey).
  rewrite Ex, Ey in *. now apply max_mono.
Qed.


Lemma product_le (w r1 r2 : Q) : 0 <= w -> r1 <= r2 -> w * r1 <= w * r2.
Proof.
  intros Hw Hr. rewrite (Qmult_comm w r1), (Qmult_comm w r2).
  now apply Qmult_le_compat_r.
Qed.

Lemma product_le_both (w1 w2 r1 r2 : Q) :
  0 <= w1 -> 0 <= r2 -> w1 <= w2 -> r1 <= r2 -> w1 * r1 <= w2 * r2.
Proof.
  intros Hw Hr Lw Lr. apply Qle_trans with (w1 * r2).
  - now apply product_le.
  - now apply Qmult_le_compat_r.
Qed.

(** X5. A record with a quality score from 0 to 5 whose timestamp, if it
    has one, is not in the future weighs between 0.2 and 1.5. *)
Theorem X5_weight_range (t : Trade.t) (e : Env) (n : nat) (q : Q) :
  Trade.qualityScore t = Fin q -> 0 <= q -> q <= 5 ->
  (forall stamp, Trade.timestamp t = Some stamp -> (stamp <= wall e n)%Z) ->
  within 0.2 1.5 (run (_calculateTradeWeight t) e n).
Proof.
  intros Hq H0 H5 Hpast. unfold run.
  destruct (weight_value t e n q Hq) as (r & -> & Hr).
  destruct (qualityWeight_range q H0 H5) as [W0 W1].
  assert (R : 0.8 <= r /\ r <= 1).
  { destruct (Trade.timestamp t) as [stamp |].
    - destruct Hr as (L & _ & Hr). split; [exact L |].
      pose proof (freshness_past stamp (wall e n) (Hpast stamp eq_refl)).
      destruct Hr as [-> | ->]; lra.
    - subst r. split; lra. }
  assert (P0 : 0 <= qualityWeight q * r).
  { apply Qmult_le_0_compat; lra. }
  assert (P1 : qualityWeight q * r <= 1.5).
  { apply Qle_trans with (1.5 * 1); [| lra].
    apply product_le_both; lra. }
  pose proof (floored_mono _ _ P0 P1) as M.
  assert (Top : max (Fin 0.2) (toFixed2 (Fin 1.5)) = Fin (150 # 100))
    by (vm_compute; reflexivity).
  rewrite Top in M.
  destruct (toFixed2_fin (qualityWeight q * r)) as (y & Ey). rewrite Ey in M |- *.
  destruct (max_fin 0.2 y) as (z & Ez & L & _). rewrite Ez in M |- *.
  unfold notAbove in M. unfold within. split; [exact L | lra].
Qed.

Lemma X5_witness :
  within 0.2 1.5
    (run (_calculateTradeWeight Scenario.stamped) (Scenario.stillAt Scenario.thirtyDays) 0).
Proof.
  apply (X5_weight_range Scenario.stamped (Scenario.stillAt Scenario.thirtyDays) 0 2.0).
  - reflexivity.
  - discriminate.
  - discriminate.
  - intros stamp [= <-]. discriminate.
Defined.

(** X6. A record never gains weight as time passes: for a quality score
    that is not negative, a later reading of the clock gives a weight that
    is at most the weight of an earlier reading. *)
Theorem X6_weight_decays
    (t : Trade.t) (e1 e2 : Env) (n1 n2 : nat) (q : Q) :
  Trade.qualityScore t = Fin q -> 0 <= q ->
  (wall e1 n1 <= wall e2 n2)%Z ->
  notAbove (run (_calculateTradeWeight t) e2 n2) (run (_calculateTradeWeight t) e1 n1).
Proof.
  intros Hq H0 Hclock. unfold run.
  destruct (weight_value t e1 n1 q Hq) as (r1 & -> & Hr1).
  destruct (weight_value t e2 n2 q Hq) as (r2 & -> & Hr2).
  assert (W : 0.2 <= qualityWeight q) by (qday; lra).
  assert (R : 0.8 <= r2 /\ r2 <= r1).
  { destruct (Trade.timestamp t) as [stamp |].
    - destruct Hr1 as (L1 & F1 & _). destruct Hr2 as (L2 & _ & E2).
      split; [exact L2 |].
      pose proof (freshness_mono stamp _ _ Hclock).
      destruct E2 as [-> | ->]; lra.
    - subst. split; lra. }
  apply floored_mono.
  - apply Qmult_le_0_compat; lra.
  - apply product_le; lra.
Qed.

Lemma X6_witness :
  notAbove
    (run (_calculateTradeWeight Scenario.stamped) (Scenario.stillAt Scenario.thirtyDays) 0)
    (run (_calculateTradeWeight Scenario.stamped) (Scenario.stillAt 0) 0).
Proof.
  apply (X6_weight_decays Scenario.stamped
           (Scenario.stillAt 0) (Scenario.stillAt Scenario.thirtyDays) 0 0 2.0).
  - reflexivity.
  - discriminate.
  - discriminate.
Defined.



(** X8. Of two records with the same timestamp (or none) weighed at the
    same reading of the clock, the one with the higher quality score does
    not weigh less, for quality scores that are not negative. *)
Theorem X8_weight_grows_with_quality
    (t1 t2 : Trade.t) (e : Env) (n : nat) (q1 q2 : Q) :
  Trade.qualityScore t1 = Fin q1 -> Trade.qualityScore t2 = Fin q2 ->
  Trade.timestamp t1 = Trade.timestamp t2 ->
  0 <= q1 -> q1 <= q2 ->
  notAbove (run (_calculateTradeWeight t1) e n) (run (_calculateTradeWeight t2) e n).
Proof.
  intros Hq1 Hq2 Hs H0 Hq. unfold run.
  destruct (weight_value t1 e n q1 Hq1) as (r1 & -> & Hr1).
  destruct (weight_value t2 e n q2 Hq2) as (r2 & -> & Hr2).
  rewrite Hs in Hr1.
  assert (W1 : 0.2 <= qualityWeight q1) by (qday; lra).
  pose proof (qualityWeight_mono q1 q2 Hq) as W.
  assert (R : 0.8 <= r1 /\ r1 <= r2).
  { destruct (Trade.timestamp t2) as [stamp |].
    - destruct Hr1 as (L1 & _ & E1). destruct Hr2 as (L2 & F2 & _).
      split; [exact L1 |]. destruct E1 as [-> | ->]; lra.
    - subst. split; lra. }
  apply floored_mono.
  - apply Qmult_le_0_compat; lra.
  - apply product_le_both; lra.
Qed.

Lemma X8_witness :
  notAbove (run (_calculateTradeWeight (Scenario.won "Asian" 2.0)) Scenario.still 0)
           (run (_calculateTradeWeight (Scenario.won "Asian" 4.0)) Scenario.still 0).
Proof.
  apply (X8_weight_grows_with_quality
           (Scenario.won "Asian" 2.0) (Scenario.won "Asian" 4.0) Scenario.still 0 2.0 4.0).
  - reflexivity.
  - reflexivity.
  - reflexivity.
  - discriminate.
  - discriminate.
Defined.

(** ** Saturated confidence *)







(** ** Timeframes *)

Lemma property_assign (tf k : string) (info : TimeframeInfo)
    (acc : list (string * TimeframeInfo)) :
  property tf (assign k info acc) =
  if String.eqb k tf then Some info else property tf acc.
Proof.
  induction acc as [| [k' v] rest IH]; simpl; [reflexivity |].
  destruct (String.eqb k' k) eqn:Ek; simpl.
  - apply String.eqb_eq in Ek. subst k'. destruct (String.eqb k tf); reflexivity.
  - rewrite IH. destruct (String.eqb k' tf) eqn:Et; [| reflexivity].
    apply String.eqb_eq in Et. subst k'. now rewrite String.eqb_sym, Ek.
Qed.

Lemma keys_assign (k : string) (info : TimeframeInfo)
    (acc : list (string * TimeframeInfo)) :
  NoDup (map fst acc) -> NoDup (map fst (assign k info acc)) /\
  forall x, In x (map fst (assign k info acc)) <-> x = k \/ In x (map fst acc).
Proof.
  induction acc as [| [k' v] rest IH]; simpl; intro N.
  - split; [repeat constructor; auto | intro x; intuition auto].
  - inversion N as [| ? ? Hnot Hrest]; subst.
    destruct (String.eqb k' k) eqn:Ek; simpl.
    + apply String.eqb_eq in Ek. subst k'. split; [exact N |].
      intro x. intuition auto.
    + destruct (IH Hrest) as [N' K']. split.
      * constructor; [| exact N']. rewrite K'. intros [E | H]; [| contradiction].
        subst k'. now rewrite String.eqb_refl in Ek.
      * intro x. rewrite K'. intuition auto.
Qed.

Lemma alignment_fold (tfs : list string) :
  forall acc,
    NoDup (map fst acc) ->
    let result := fold_left (fun acc tf => assign tf placeholder acc) tfs acc in
    NoDup (map fst result) /\
    (forall tf, In tf (map fst result) <-> In tf tfs \/ In tf (map fst acc)) /\
    (forall tf, In tf tfs -> property tf result = Some placeholder) /\
    (forall tf, ~ In tf tfs -> property tf result = property tf acc).
Proof.
  induction tfs as [| k tfs IH]; intros acc N; simpl.
  - repeat split; tauto.
  - destruct (keys_assign k placeholder acc N) as [N' K'].
    destruct (IH (assign k placeholder acc) N') as (N2 & K2 & P2 & Q2).
    split; [exact N2 |]. split; [| split].
    + intro tf. rewrite K2, K'. intuition auto.
    + intros tf [-> | H]; [| now apply P2].
      destruct (in_dec string_dec tf tfs) as [I | I]; [now apply P2 |].
      rewrite (Q2 tf I), property_assign. now rewrite String.eqb_refl.
    + intros tf H. rewrite Q2 by tauto. rewrite property_assign.
      destruct (String.eqb k tf) eqn:E; [| reflexivity].
      apply String.eqb_eq in E. tauto.
Qed.

(** X10. [_analyzeTimeframes] returns null exactly when the setup lists no
    timeframe; otherwise it returns an object whose own keys are the listed
    labels, each once, and every label maps to the same placeholder, trend
    'bullish' with strength 0.8.  The label '__proto__', which an
    assignment does not store as a key, is set aside. *)
Theorem X10_timeframes_get_the_placeholder (setup : Setup.t) :
  (_analyzeTimeframes setup = None <->
   Setup.timeframes setup = None \/ Setup.timeframes setup = Some []) /\
  forall tfs,
    Setup.timeframes setup = Some tfs -> tfs <> [] -> ~ In "__proto__" tfs ->
    exists alignment,
      _analyzeTimeframes setup = Some alignment /\
      NoDup (map fst alignment) /\
      (forall tf, In tf (map fst alignment) <-> In tf tfs) /\
      (forall tf, In tf tfs ->
                  property tf alignment = Some (mkTimeframeInfo "bullish" (Fin 0.8))) /\
      (forall tf, ~ In tf tfs -> property tf alignment = None).
Proof.
  unfold _analyzeTimeframes. split.
  - destruct (Setup.timeframes setup) as [[| tf tfs] |]; split;
      try discriminate; auto; intros [H | H]; discriminate.
  - intros tfs -> Hne _. destruct tfs as [| k tfs]; [congruence |].
    destruct (alignment_fold (k :: tfs) [] (NoDup_nil _)) as (N & K & P & Q).
    eexists. split; [reflexivity |].
    split; [exact N |]. split; [| split].
    + intro tf. rewrite K. simpl. tauto.
    + exact P.
    + intros tf H. exact (Q tf H).
Qed.

(** ** A setup without a price *)

(** X11. A setup that passes validation but has no current price (or NaN)
    still gets a prediction: the recommended entry is 0, while the
    suggested and the adjusted stop loss are NaN, and the position size is
    NaN unless the balance or the risk is missing or zero. *)
Theorem X11_missing_price
    (setup : Setup.t) (history : list Trade.t) (e : Env) (n : nat) :
  _validateSetup setup = true ->
  Setup.currentPrice setup = None \/ Setup.currentPrice setup = Some NaN ->
  exists p,
    run (predictSetup setup history) e n = Success p /\
    recommendedEntry p = Fin 0 /\
    suggestedStopLoss p = NaN /\
    adjustedStopLoss p = NaN /\
    (positionSize p = None \/ positionSize p = Some NaN).
Proof.
  intros V Hprice. rewrite (predictSetup_valid setup history e n V). cbv zeta.
  eexists. split; [reflexivity |].
  cbn [recommendedEntry suggestedStopLoss adjustedStopLoss positionSize].
  assert (Stop : _calculateStopLoss setup = NaN).
  { unfold _calculateStopLoss. destruct Hprice as [-> | ->]; reflexivity. }
  rewrite Stop. split; [| split; [reflexivity | split]].
  - unfold _calculateEntry. destruct Hprice as [-> | ->]; reflexivity.
  - unfold _adjustForVolatility.
    destruct (Setup.volatility setup) as [v |]; [| reflexivity].
    destruct (String.eqb v "high"); reflexivity.
  - unfold _calculatePositionSize.
    destruct (negb _ || negb _); [now left | right].
    assert (D : abs (sub (toNum (Setup.currentPrice setup)) NaN) = NaN).
    { destruct (toNum (Setup.currentPrice setup)); reflexivity. }
    rewrite D.
    destruct (mul _ _); reflexivity.
Qed.

Lemma X11_witness :
  exists p,
    run (predictSetup
           (Setup.mk (Some "FVG-RD") (Some "London") (Some (Fin 4.4)) None
                     None (Some (Fin 10000)) (Some (Fin 1)) None)
           Scenario.historyA) Scenario.still 0 = Success p /\
    recommendedEntry p = Fin 0 /\
    suggestedStopLoss p = NaN /\
    adjustedStopLoss p = NaN /\
    (positionSize p = None \/ positionSize p = Some NaN).
Proof.
  apply (X11_missing_price
           (Setup.mk (Some "FVG-RD") (Some "London") (Some (Fin 4.4)) None
                     None (Some (Fin 10000)) (Some (Fin 1)) None)
           Scenario.historyA Scenario.still 0).
  - reflexivity.
  - now left.
Defined.

(** ** The callers *)

Lemma ltb_fin (x y : Q) : ltb (Fin x) (Fin y) = true <-> x < y.
Proof.
  unfold ltb. rewrite negb_true_iff. apply Qle_bool_false.
Qed.

Lemma gtb_zero (a : num) : gtb a (Fin 0) = true <-> positive a.
Proof.
  unfold gtb, positive. destruct a as [x | | |].
  - rewrite ltb_fin. split; [eauto | intros [H | (y & [= ->] & H)]; [discriminate | exact H]].
  - simpl. split; auto.
  - simpl. split; [discriminate | intros [H | (y & H & _)]; discriminate].
  - simpl. split; [discriminate | intros [H | (y & H & _)]; discriminate].
Qed.

Lemma nonEmpty_true (s : string) : nonEmpty s = true <-> s <> "".
Proof.
  unfold nonEmpty. rewrite negb_true_iff. apply String.eqb_neq.
Qed.

Lemma range_check (a : num) (hi : Q) :
  geb a (Fin 0) && leb a (Fin hi) = true <-> within 0 hi a.
Proof.
  unfold geb. destruct a as [x | | |]; simpl;
    try (split; [discriminate | tauto]).
  rewrite andb_true_iff, !Qle_bool_iff. tauto.
Qed.

Lemma risk_check (a : num) :
  gtb a (Fin 0) && leb a (Fin 5) = true <-> exists x, a = Fin x /\ 0 < x /\ x <= 5.
Proof.
  rewrite andb_true_iff. destruct a as [x | | |].
  - unfold gtb. rewrite ltb_fin. simpl. rewrite Qle_bool_iff. split.
    + intros [H1 H2]. eauto.
    + intros (y & [= ->] & H). exact H.
  - simpl. split; [intros [_ H]; discriminate | intros (y & H & _); discriminate].
  - simpl. split; [intros [H _]; discriminate | intros (y & H & _); discriminate].
  - simpl. split; [intros [H _]; discriminate | intros (y & H & _); discriminate].
Qed.

(** The form accepts the data exactly when the six checks pass. *)
Lemma formValid_checks (data : FormData.t) :
  Verdict.isValid (_validateFormData data) = true <->
  nonEmpty (FormData.modelType data) = true /\
  nonEmpty (FormData.session data) = true /\
  geb (FormData.qualityScore data) (Fin 0) && leb (FormData.qualityScore data) (Fin 5)
    = true /\
  gtb (FormData.currentPrice data) (Fin 0) = true /\
  gtb (FormData.accountBalance data) (Fin 0) = true /\
  gtb (FormData.maxRiskPercent data) (Fin 0) && leb (FormData.maxRiskPercent data) (Fin 5)
    = true.
Proof.
  unfold _validateFormData, validations.
  destruct (nonEmpty (FormData.modelType data)),
           (nonEmpty (FormData.session data)),
           (geb (FormData.qualityScore data) (Fin 0)
            && leb (FormData.qualityScore data) (Fin 5)),
           (gtb (FormData.currentPrice data) (Fin 0)),
           (gtb (FormData.accountBalance data) (Fin 0)),
           (gtb (FormData.maxRiskPercent data) (Fin 0)
            && leb (FormData.maxRiskPercent data) (Fin 5));
    simpl; intuition congruence.
Qed.

(** What the form accepts, [predictSetup] accepts. *)
Lemma formValid_setupValid (data : FormData.t) :
  Verdict.isValid (_validateFormData data) = true ->
  _validateSetup (asSetup data) = true.
Proof.
  intro H. apply formValid_checks in H as (Hm & Hs & Hq & _).
  unfold _validateSetup, asSetup, truthyStr.
  cbn [Setup.modelType Setup.session Setup.qualityScore].
  unfold nonEmpty in Hm, Hs. now rewrite Hm, Hs, Hq.
Qed.

Lemma invalid_message (data : FormData.t) :
  Verdict.isValid (_validateFormData data) = false ->
  Verdict.message (_validateFormData data) <> "".
Proof.
  unfold _validateFormData, validations.
  destruct (nonEmpty (FormData.modelType data)),
           (nonEmpty (FormData.session data)),
           (geb (FormData.qualityScore data) (Fin 0)
            && leb (FormData.qualityScore data) (Fin 5)),
           (gtb (FormData.currentPrice data) (Fin 0)),
           (gtb (FormData.accountBalance data) (Fin 0)),
           (gtb (FormData.maxRiskPercent data) (Fin 0)
            && leb (FormData.maxRiskPercent data) (Fin 5));
    simpl; intro H; discriminate.
Qed.

(** The two ways a submission goes. *)
Lemma handleSubmit_value (host : Host) (sheet : Sheet.t) (history : list Trade.t)
    (e : Env) (n : nat) :
  let data := run (_getFormData host sheet) e n in
  run (handleSubmit host sheet history) e n =
  if Verdict.isValid (_validateFormData data)
  then match run (predictSetup (asSetup data) history) e (S n) with
       | Failure message => mkSubmission false (Some ("Prediction Error", message)) None
       | Success prediction =>
           mkSubmission true None (Some (_displayResults host prediction))
       end
  else mkSubmission false
         (Some ("Validation Error", Verdict.message (_validateFormData data))) None.
Proof.
  cbv zeta. unfold run, handleSubmit, _getFormData, bind, ret, newDate.
  cbv beta iota zeta. cbn [fst].
  destruct (Verdict.isValid (_validateFormData _)); cbn [negb]; cbv beta iota.
  - destruct (predictSetup _ history e (S n)) as [[m | p] k]; reflexivity.
  - reflexivity.
Qed.

(** X12. A submission of the form goes one of two ways: the data pass the
    form's validation, the seven result rows are written, no alert is
    shown and [handleSubmit] returns true; or they do not, a 'Validation
    Error' alert with a message that is not empty is shown, nothing is
    written and it returns false.  The 'Prediction Error' alert is never
    shown: what the form accepts, [predictSetup] accepts. *)
Theorem X12_submission_outcomes
    (host : Host) (sheet : Sheet.t) (history : list Trade.t) (e : Env) (n : nat) :
  let data := run (_getFormData host sheet) e n in
  let outcome := run (handleSubmit host sheet history) e n in
  returned outcome = Verdict.isValid (_validateFormData data) /\
  (forall message, alert outcome <> Some ("Prediction Error", message)) /\
  ((returned outcome = true /\ alert outcome = None /\
    exists rows, written outcome = Some rows /\ List.length rows = 7%nat) \/
   (returned outcome = false /\ written outcome = None /\
    alert outcome = Some ("Validation Error", Verdict.message (_validateFormData data)) /\
    Verdict.message (_validateFormData data) <> "")).
Proof.
  cbv zeta. rewrite handleSubmit_value. cbv zeta.
  destruct (Verdict.isValid (_validateFormData _)) eqn:V.
  - rewrite (predictSetup_valid _ history e (S n) (formValid_setupValid _ V)).
    cbv zeta. cbn [returned alert written].
    split; [reflexivity |]. split; [discriminate |].
    left. repeat split. eexists. split; reflexivity.
  - cbn [returned alert written].
    split; [reflexivity |]. split; [discriminate |].
    right. repeat split. now apply invalid_message.
Qed.

Lemma nonEmpty_false (s : string) : nonEmpty s = false <-> s = "".
Proof.
  unfold nonEmpty. rewrite negb_false_iff. apply String.eqb_eq.
Qed.

(** X13. The message of the form's validation names the first check that
    fails, in the order model type, session, quality score, price,
    balance, risk; it is empty exactly when the data are valid. *)
Theorem X13_message_names_first_failed_check (data : FormData.t) :
  let verdict := _validateFormData data in
  let model := FormData.modelType data <> "" in
  let session := FormData.session data <> "" in
  let quality := within 0 5 (FormData.qualityScore data) in
  let price := positive (FormData.currentPrice data) in
  let balance := positive (FormData.accountBalance data) in
  let risk := exists x, FormData.maxRiskPercent data = Fin x /\ 0 < x /\ x <= 5 in
  (Verdict.isValid verdict = true <-> Verdict.message verdict = "") /\
  (Verdict.isValid verdict = true <->
   model /\ session /\ quality /\ price /\ balance /\ risk) /\
  (Verdict.message verdict = "Model Type is required" <-> ~ model) /\
  (Verdict.message verdict = "Session is required" <-> model /\ ~ session) /\
  (Verdict.message verdict = "Quality Score must be between 0 and 5" <->
   model /\ session /\ ~ quality) /\
  (Verdict.message verdict = "Current Price must be greater than 0" <->
   model /\ session /\ quality /\ ~ price) /\
  (Verdict.message verdict = "Account Balance must be greater than 0" <->
   model /\ session /\ quality /\ price /\ ~ balance) /\
  (Verdict.message verdict = "Risk % must be between 0 and 5" <->
   model /\ session /\ quality /\ price /\ balance /\ ~ risk).
Proof.
  cbv zeta.
  pose proof (nonEmpty_true (FormData.modelType data)) as M1.
  pose proof (nonEmpty_true (FormData.session data)) as S1.
  pose proof (range_check (FormData.qualityScore data) 5) as Q1.
  pose proof (gtb_zero (FormData.currentPrice data)) as P1.
  pose proof (gtb_zero (FormData.accountBalance data)) as B1.
  pose proof (risk_check (FormData.maxRiskPercent data)) as R1.
  rewrite <- M1, <- S1, <- Q1, <- P1, <- B1, <- R1.
  rewrite !not_true_iff_false.
  clear M1 S1 Q1 P1 B1 R1.
  unfold _validateFormData, validations.
  destruct (nonEmpty (FormData.modelType data)),
           (nonEmpty (FormData.session data)),
           (geb (FormData.qualityScore data) (Fin 0)
            && leb (FormData.qualityScore data) (Fin 5)),
           (gtb (FormData.currentPrice data) (Fin 0)),
           (gtb (FormData.accountBalance data) (Fin 0)),
           (gtb (FormData.maxRiskPercent data) (Fin 0)
            && leb (FormData.maxRiskPercent data) (Fin 5));
    cbn [find negb Check.condition Check.message Verdict.isValid Verdict.message];
    repeat split; try discriminate; try tauto; intros; intuition discriminate.
Qed.





Lemma orElse_falsy (c d : Cell) : truthyCell c = false -> orElse c d = d.
Proof. unfold orElse. now intros ->. Qed.

Lemma submission_returned (host : Host) (sheet : Sheet.t) (history : list Trade.t)
    (e : Env) (n : nat) :
  returned (run (handleSubmit host sheet history) e n) =
    Verdict.isValid (_validateFormData (run (_getFormData host sheet) e n)) /\
  (returned (run (handleSubmit host sheet history) e n) = false ->
   written (run (handleSubmit host sheet history) e n) = None).
Proof.
  rewrite handleSubmit_value. cbv zeta.
  destruct (Verdict.isValid (_validateFormData _)) eqn:V.
  - rewrite (predictSetup_valid _ history e (S n) (formValid_setupValid _ V)).
    cbv zeta. cbn [returned written]. split; [reflexivity | discriminate].
  - cbn [returned written]. split; reflexivity.
Qed.

(** X15. Blank cells of the form: a blank (or zero) quality score is read
    as 0, a blank (or zero) risk as 1 and a blank volatility as 'medium';
    a blank model type, session, price or balance makes the submission
    fail, with nothing written; a blank quality score and a blank risk
    never do: with both blank the submission succeeds exactly when the
    model type and the session are given and the price and the balance are
    greater than 0. *)
Theorem X15_blank_cells
    (host : Host) (sheet : Sheet.t) (history : list Trade.t) (e : Env) (n : nat) :
  let data := run (_getFormData host sheet) e n in
  let outcome := run (handleSubmit host sheet history) e n in
  (truthyCell (Sheet.qualityScore sheet) = false -> FormData.qualityScore data = Fin 0) /\
  (truthyCell (Sheet.maxRiskPercent sheet) = false ->
   FormData.maxRiskPercent data = Fin 1) /\
  (truthyCell (Sheet.volatility sheet) = false -> FormData.volatility data = "medium") /\
  (truthyCell (Sheet.modelType sheet) = false \/
   truthyCell (Sheet.session sheet) = false \/
   truthyCell (Sheet.currentPrice sheet) = false \/
   truthyCell (Sheet.accountBalance sheet) = false ->
   returned outcome = false /\ written outcome = None) /\
  (truthyCell (Sheet.qualityScore sheet) = false ->
   truthyCell (Sheet.maxRiskPercent sheet) = false ->
   (returned outcome = true <->
    FormData.modelType data <> "" /\ FormData.session data <> "" /\
    positive (FormData.currentPrice data) /\
    positive (FormData.accountBalance data))).
Proof.
  cbv zeta.
  destruct (submission_returned host sheet history e n) as [R W].
  assert (D : run (_getFormData host sheet) e n =
              FormData.mk
                (asString host (orElse (Sheet.modelType sheet) (TextCell "")))
                (asString host (orElse (Sheet.session sheet) (TextCell "")))
                (asNumber host (orElse (Sheet.qualityScore sheet) (NumberCell (Fin 0))))
                (asNumber host (orElse (Sheet.currentPrice sheet) (NumberCell (Fin 0))))
                (asString host (orElse (Sheet.volatility sheet) (TextCell "medium")))
                (asNumber host (orElse (Sheet.accountBalance sheet) (NumberCell (Fin 0))))
                (asNumber host (orElse (Sheet.maxRiskPercent sheet) (NumberCell (Fin 1))))
                (wall e n)) by reflexivity.
  assert (Dq : truthyCell (Sheet.qualityScore sheet) = false ->
               FormData.qualityScore (run (_getFormData host sheet) e n) = Fin 0).
  { intro H. rewrite D. cbn [FormData.qualityScore]. now rewrite orElse_falsy. }
  assert (Dr : truthyCell (Sheet.maxRiskPercent sheet) = false ->
               FormData.maxRiskPercent (run (_getFormData host sheet) e n) = Fin 1).
  { intro H. rewrite D. cbn [FormData.maxRiskPercent]. now rewrite orElse_falsy. }
  split; [exact Dq |]. split; [exact Dr |]. split; [| split].
  - intro H. rewrite D. cbn [FormData.volatility]. now rewrite orElse_falsy.
  - intro H.
    assert (V : Verdict.isValid (_validateFormData (run (_getFormData host sheet) e n))
                = false).
    { apply not_true_iff_false. intro V.
      apply formValid_checks in V as (Vm & Vs & _ & Vp & Vb & _).
      rewrite D in Vm, Vs, Vp, Vb.
      cbn [FormData.modelType FormData.session FormData.currentPrice
           FormData.accountBalance] in Vm, Vs, Vp, Vb.
      destruct H as [H | [H | [H | H]]]; rewrite (orElse_falsy _ _ H) in *;
        discriminate. }
    rewrite V in R. split; [exact R | now apply W].
  - intros Hq Hr. rewrite R, formValid_checks.
    rewrite <- !gtb_zero, <- !nonEmpty_true.
    rewrite (Dq Hq), (Dr Hr).
    assert (Q : geb (Fin 0) (Fin 0) && leb (Fin 0) (Fin 5) = true) by reflexivity.
    assert (K : gtb (Fin 1) (Fin 0) && leb (Fin 1) (Fin 5) = true) by reflexivity.
    rewrite Q, K. tauto.
Qed.

(** X16. [predictTradeSetup] of main.js answers exactly as [predictSetup]
    does: the same prediction on success and, through the throw and the
    catch, the same failure message. *)
Theorem X16_predictTradeSetup_is_transparent
    (formData : Setup.t) (history : list Trade.t) (e : Env) (n : nat) :
  run (predictTradeSetup formData history) e n = run (predictSetup formData history) e n.
Proof.
  unfold run, predictTradeSetup, bind, ret.
  destruct (predictSetup formData history e n) as [[message | prediction] k];
    reflexivity.
Qed.

(** ** Similarity *)

Lemma unit_clamp (x : Q) :
  x <= 1 -> exists z, max (Fin 0) (Fin x) = Fin z /\ 0 <= z /\ z <= 1 /\ x <= z.
Proof.
  intro H. destruct (max_fin 0 x) as (z & -> & L0 & Lx & Hz).
  exists z. repeat split; auto. destruct Hz as [-> | ->]; lra.
Qed.

(** X17. [_calculateSimilarity] of a record and a setup whose quality
    scores are numbers lies between 0 and 1, and it is 1 when the two
    quality scores are equal and either a timestamp is missing or both
    fall in the same hour of the day. *)
Theorem X17_similarity_range
    (getHours : Z -> Z) (setup : Setup.t) (setupStamp : option Z) (trade : Trade.t)
    (q s : Q) :
  Trade.qualityScore trade = Fin q ->
  Setup.qualityScore setup = Some (Fin s) ->
  within 0 1 (_calculateSimilarity getHours setup setupStamp trade) /\
  (q == s ->
   match setupStamp, Trade.timestamp trade with
   | Some a, Some b => getHours a = getHours b
   | _, _ => True
   end ->
   _calculateSimilarity getHours setup setupStamp trade ~= Fin 1).
Proof.
  intros Hq Hs. unfold _calculateSimilarity. rewrite Hq, Hs. cbv zeta.
  unfold toNum, sub, neg, add, abs.
  rewrite div_fin by (intro H; vm_compute in H; discriminate).
  pose proof (Qabs_nonneg (q + - s)) as A0.
  destruct (unit_clamp (1 + - (Qabs (q + - s) / 5))) as (z & -> & Z0 & Z1 & Zx);
    [qdiv; lra |].
  assert (Time : exists z',
             match setupStamp, Trade.timestamp trade with
             | Some a, Some b =>
                 max (Fin 0)
                   (sub (Fin 1)
                      (div (abs (sub (ofZ (getHours a)) (ofZ (getHours b)))) (Fin 24)))
             | _, _ => Fin 1
             end = Fin z' /\ 0 <= z' /\ z' <= 1 /\
             (match setupStamp, Trade.timestamp trade with
              | Some a, Some b => getHours a = getHours b
              | _, _ => True
              end -> z' == 1)).
  { destruct setupStamp as [a |], (Trade.timestamp trade) as [b |];
      try (exists 1; repeat split; try lra; reflexivity).
    unfold ofZ, sub, neg, add, abs.
    rewrite div_fin by (intro H; vm_compute in H; discriminate).
    pose proof (Qabs_nonneg (inject_Z (getHours a) + - inject_Z (getHours b))) as H0.
    destruct (unit_clamp (1 + - (Qabs (inject_Z (getHours a) + - inject_Z (getHours b))
                                 / 24)))
      as (z' & -> & L0 & L1 & Lx).
    { unfold Qdiv. change (/ 24) with (1 # 24). lra. }
    exists z'. repeat split; auto.
    intro E. rewrite E in Lx.
    assert (Zero : Qabs (inject_Z (getHours b) + - inject_Z (getHours b)) == 0).
    { rewrite (Qabs_wd _ 0); [reflexivity | ring]. }
    rewrite Zero in Lx. unfold Qdiv in Lx. lra. }
  unfold sub, neg, add, abs, ofZ in Time |- *.
  destruct Time as (z' & -> & T0 & T1 & Tsame).
  unfold mul. split.
  - apply (within_mono _ _ (inject_Z 0 / 100) (inject_Z 100 / 100));
      [apply Qle_bool_iff; reflexivity | apply Qle_bool_iff; reflexivity |].
    apply toFixed2_within; try lia.
    + assert (E : inject_Z 0 / 100 == 0) by reflexivity. rewrite E. lra.
    + assert (E : inject_Z 100 / 100 == 1) by reflexivity. rewrite E. lra.
  - intros Eq Hh. specialize (Tsame Hh).
    assert (Zero : Qabs (q + - s) == 0).
    { rewrite (Qabs_wd _ 0); [reflexivity | rewrite Eq; ring]. }
    rewrite Zero in Zx. unfold Qdiv in Zx.
    assert (One : z * 0.7 + z' * 0.3 == 1) by lra.
    assert (E : inject_Z 100 / 100 == 1) by reflexivity.
    assert (W : within (inject_Z 100 / 100) (inject_Z 100 / 100)
                       (toFixed2 (Fin (z * 0.7 + z' * 0.3)))).
    { apply toFixed2_within; try lia; rewrite E, One; apply Qle_refl. }
    destruct (toFixed2_fin (z * 0.7 + z' * 0.3)) as (y & Ey). rewrite Ey in W |- *.
    unfold within in W. unfold same. rewrite E in W. lra.
Qed.

Lemma X17_witness :
  within 0 1
    (_calculateSimilarity (fun _ => 0%Z) Scenario.setupA None (Scenario.won "London" 4.5)).
Proof.
  exact (proj1 (X17_similarity_range (fun _ => 0%Z) Scenario.setupA None
                  (Scenario.won "London" 4.5) 4.5 4.4 eq_refl eq_refl)).
Defined.

(** ** Readings of the clock and the shape of the outputs *)





Lemma rounded_hundredth (a b : Z) (x : Q) :
  (0 <= a)%Z -> (b <= 100)%Z ->
  inject_Z a / 100 <= x -> x <= inject_Z b / 100 ->
  exists m, (a <= m <= b)%Z /\ toFixed2 (Fin x) = Fin (inject_Z m / 100).
Proof.
  intros Ha Hb Hax Hxb.
  assert (A0 : inject_Z 0 <= inject_Z a) by (rewrite <- Zle_Qle; exact Ha).
  assert (B100 : inject_Z b <= inject_Z 100) by (rewrite <- Zle_Qle; exact Hb).
  change (inject_Z 0) with 0 in A0. change (inject_Z 100) with 100 in B100.
  exists (hundredths x). split; [now apply hundredths_bounds |].
  apply toFixed2_small.
  - qdiv. lra.
  - apply Qle_lt_trans with 1; [qdiv; lra | reflexivity].
Qed.

(** X19. The probability and the confidence of a prediction are whole
    hundredths: the probability is m / 100 for an integer m from 0 to 100,
    and the confidence is m / 100 for m = 10 or an integer m from 20 to
    100. *)
Theorem X19_outputs_are_hundredths
    (setup : Setup.t) (history : list Trade.t) (e : Env) (n : nat) :
  _validateSetup setup = true ->
  exists p,
    run (predictSetup setup history) e n = Success p /\
    (exists m, (0 <= m <= 100)%Z /\ probability p ~= Fin (inject_Z m / 100)) /\
    (exists m, (m = 10 \/ 20 <= m <= 100)%Z /\ confidence p ~= Fin (inject_Z m / 100)).
Proof.
  intro V. rewrite (predictSetup_valid setup history e n V). cbv zeta.
  eexists. split; [reflexivity |]. cbn [probability confidence].
  pose proof (findSimilar_isFin setup history) as Hfin.
  destruct (_findSimilarTrades setup history) as [| t ts].
  - split; [exists 0%Z | exists 10%Z]; (split; [lia | reflexivity]).
  - rewrite calculateProbability_cons. cbv zeta. cbn [fst snd]. split.
    + assert (Hk : (List.length (filter isSuccess (t :: ts))
                    <= List.length (t :: ts))%nat) by apply filter_length_le.
      assert (Hn : (0 < List.length (t :: ts))%nat) by (simpl; lia).
      pose proof (ofNat_pos _ Hn) as Pn.
      assert (Pk : 0 <= inject_Z (Z.of_nat (List.length (filter isSuccess (t :: ts))))).
      { change 0 with (inject_Z 0). rewrite <- Zle_Qle. lia. }
      assert (Pkn : inject_Z (Z.of_nat (List.length (filter isSuccess (t :: ts))))
                    <= inject_Z (Z.of_nat (List.length (t :: ts)))).
      { rewrite <- Zle_Qle. lia. }
      unfold ofNat. rewrite div_fin by lra.
      destruct (rounded_hundredth 0 100
                  (inject_Z (Z.of_nat (List.length (filter isSuccess (t :: ts))))
                   / inject_Z (Z.of_nat (List.length (t :: ts)))))
        as (m & Hm & ->); try lia.
      * assert (E : inject_Z 0 / 100 == 0) by reflexivity. rewrite E.
        apply Qle_shift_div_l; [exact Pn | lra].
      * assert (E : inject_Z 100 / 100 == 1) by reflexivity. rewrite E.
        apply Qle_shift_div_r; [exact Pn | lra].
      * exists m. split; [exact Hm | simpl; reflexivity].
    + destruct (avg_floored (fst (mapM _calculateTradeWeight (t :: ts) e n)))
        as (v & -> & Hv).
      { now apply weights_nonempty. }
      { now apply weights_floored. }
      rewrite clamp_idle by exact Hv.
      destruct (min_fin v 1) as (x & -> & _ & X1 & Hx).
      destruct (rounded_hundredth 20 100 x) as (m & Hm & ->); try lia.
      * change (inject_Z 20 / 100) with (20 * (1 # 100)).
        destruct Hx as [-> | ->]; lra.
      * assert (E : inject_Z 100 / 100 == 1) by reflexivity. now rewrite E.
      * exists m. split; [right; exact Hm | simpl; reflexivity].
Qed.

Lemma X19_witness :
  exists p,
    run (predictSetup Scenario.setupA Scenario.historyB) Scenario.still 0 = Success p /\
    (exists m, (0 <= m <= 100)%Z /\ probability p ~= Fin (inject_Z m / 100)) /\
    (exists m, (m = 10 \/ 20 <= m <= 100)%Z /\ confidence p ~= Fin (inject_Z m / 100)).
Proof.
  apply (X19_outputs_are_hundredths Scenario.setupA Scenario.historyB Scenario.still 0).
  reflexivity.
Defined.
